(** * Solana Actions example: the Memo and Transfer action providers

    A shallow embedding of
      - [src/app/api/actions/memo/route.ts]
      - [src/app/api/actions/transfer-sol/route.ts]
      - [src/app/api/actions/transfer-sol/const.ts]
    together with the properties of the handlers stated in the specification.

    The route handlers are [async] functions that talk to a Solana RPC node
    through [@solana/web3.js] and hand their transaction to
    [createPostResponse] of [@solana/actions].  They are embedded in a small
    monad [Async] that threads the list of outside calls made so far (the
    trace) and distinguishes a returned value, a thrown JavaScript value and a
    computation that is still awaiting when the fuel of its [while (true)]
    loop is used up.  What the libraries and the JavaScript runtime compute is
    an interface ([Platform]); what the network answers is an input
    ([World]). *)

From Stdlib Require Import ZArith String Ascii List Bool Lia.
From Stdlib Require Import Floats.PrimFloat Floats.SpecFloat Floats.FloatOps.
Import ListNotations.

Set Implicit Arguments.
Open Scope string_scope.
Open Scope list_scope.
Open Scope Z_scope.

(* ================================================================== *)
(** * Part I. The model *)
(* ================================================================== *)

(** ** JavaScript values the handlers observe *)

(** A thrown value.  The handlers' [catch] blocks only tell a thrown string
    ([typeof err == "string"]) from everything else; everything else is an
    [Error] object, of which the name is kept. *)
Inductive Thrown : Type :=
| ThrownString (s : string)
| ThrownError (name : string).

(** The result of synchronous code that may throw. *)
Inductive Result (A : Type) : Type :=
| Ok (a : A)
| Throw (e : Thrown).
Arguments Ok {A} a.
Arguments Throw {A} e.

(** The settlement of a promise of a library or of the runtime.  The libraries
    reject with [Error] objects and never with a bare string. *)
Inductive Reply (A : Type) : Type :=
| Resolved (a : A)
| Rejected (error : string).
Arguments Resolved {A} a.
Arguments Rejected {A} error.

(** The double quote as a one-character string. *)
Definition dquote : string := String (ascii_of_nat 34) EmptyString.

(** [String.prototype.includes]. *)
Fixpoint includes (s sub : string) : bool :=
  String.prefix sub s ||
  match s with
  | EmptyString => false
  | String _ s' => includes s' sub
  end.

(** Truthiness of a [string | null]: [null] and the empty string are falsy. *)
Definition truthy (v : option string) : bool :=
  match v with
  | None => false
  | Some EmptyString => false
  | Some (String _ _) => true
  end.

(** [a ?? b] on a [number | null | undefined]. *)
Definition nullish (a : option Z) (b : Z) : Z :=
  match a with
  | Some n => n
  | None => b
  end.

(** [Array.prototype.slice(i, j)] for [0 <= i <= j]. *)
Definition slice {A : Type} (l : list A) (i j : nat) : list A :=
  firstn (j - i) (skipn i l).

(** ** The request *)

(** A parsed request URL ([new URL(req.url)]; the URL of a request to a
    route handler is absolute, and the constructor does not throw on it).
    [origin] is the serialised origin ([scheme://host[:port]]). *)
Record URL : Type := {
  origin : string;
  pathname : string;
  searchParams : list (string * string);
  hash : string
}.

(** [url.searchParams.get(name)]: the first value of [name], or [null]. *)
Fixpoint searchParams_get (params : list (string * string)) (name : string)
  : option string :=
  match params with
  | [] => None
  | (k, v) :: rest => if String.eqb k name then Some v else searchParams_get rest name
  end.

(** [new URL(path, origin).toString()] for an absolute path. *)
Definition URL_toString (path base : string) : string := (base ++ path)%string.

(** [ActionPostRequest]. *)
Record ActionPostRequest : Type := { account : string }.

(** A [Request]: its URL and what [await req.json()] settles to. *)
Record Request : Type := {
  url : URL;
  json : Reply ActionPostRequest
}.

(** ** The responses *)

Definition Headers : Type := list (string * string).

Record ActionParameter : Type := {
  parameter_name : string;
  parameter_label : string;
  parameter_required : bool
}.

Record LinkedAction : Type := {
  action_label : string;
  href : string;
  parameters : option (list ActionParameter)
}.

(** [ActionGetResponse]. *)
Record ActionGetResponse : Type := {
  title : string;
  icon : string;
  description : string;
  label : string;
  links : option (list LinkedAction)
}.

(** [ActionPostResponse]: the serialised transaction and the message. *)
Record ActionPostResponse : Type := {
  post_transaction : string;
  post_message : string
}.

Inductive Body : Type :=
| TextBody (text : string)
| GetBody (payload : ActionGetResponse)
| PostBody (payload : ActionPostResponse).

Record Response : Type := {
  status : Z;
  headers : Headers;
  body : Body
}.

(** [new Response(text, { status, headers })]. *)
Definition Response_new (text : string) (st : Z) (h : Headers) : Response :=
  {| status := st; headers := h; body := TextBody text |}.

(** [Response.json(payload, { headers })]: status 200. *)
Definition Response_json (payload : Body) (h : Headers) : Response :=
  {| status := 200; headers := h; body := payload |}.

(** ** The libraries and the runtime *)

(** What [@solana/web3.js], [@solana/actions] and the JavaScript runtime
    compute for the handlers.  None of it is code of this repository. *)
Class Platform : Type := {
  (** The class [PublicKey]. *)
  PublicKey : Type;
  (** [new PublicKey(s)] on a string; [None] when the constructor throws. *)
  PublicKey_new : string -> option PublicKey;
  (** [key.toBase58()]. *)
  toBase58 : PublicKey -> string;
  (** The global [parseFloat]. *)
  parseFloat : string -> float;
  (** A number inside a template literal. *)
  Number_toString : float -> string;
  (** [BigInt(x)], which [SystemProgram.transfer] applies to [lamports];
      [None] when it throws a [RangeError]. *)
  BigInt : float -> option Z;
  (** The constant [ACTIONS_CORS_HEADERS]. *)
  ACTIONS_CORS_HEADERS : Headers
}.

(** The alphabet of base58, in which an account is written. *)
Definition BASE58 : string :=
  "123456789ABCDEFGHJKLMNPQRSTUVWXYZabcdefghijkmnopqrstuvwxyz".

Fixpoint occurs (c : ascii) (s : string) : bool :=
  match s with
  | EmptyString => false
  | String d s' => Ascii.eqb c d || occurs c s'
  end.

(** A string of base58 digits. *)
Fixpoint base58_text (s : string) : bool :=
  match s with
  | EmptyString => true
  | String c s' => occurs c BASE58 && base58_text s'
  end.

(** A platform whose [PublicKey] constructor, like [bs58.decode], takes
    base58 text only. *)
Definition takes_base58_only (P : Platform) : Prop :=
  forall (s : string) (key : PublicKey), PublicKey_new s = Some key -> base58_text s = true.

(** [LAMPORTS_PER_SOL]. *)
Definition LAMPORTS_PER_SOL : float := 1000000000%float.

(** The integers an unsigned 64-bit field holds: [0 <= n < 2^64]. *)
Definition fits_u64 (n : Z) : bool :=
  ((0 <=? n) && (n <? 18446744073709551616))%Z.

(** ** Plain data of [@solana/web3.js] *)

(** The programs the handlers address. *)
Inductive ProgramId : Type :=
| ComputeBudgetProgram_programId
| MEMO_PROGRAM_ID
| SystemProgram_programId.

(** Instruction data before its wire encoding. *)
Inductive InstructionData : Type :=
| SetComputeUnitPrice (microLamports : Z)
| Utf8 (text : string)
| SystemTransfer (lamports : Z).

(** [ConfirmedSignatureInfo]: [blockTime] in seconds, or [null].  Times are
    integers far below [2 ^ 53], on which the arithmetic of JavaScript numbers
    is that of [Z]. *)
Record ConfirmedSignatureInfo : Type := {
  signature : string;
  blockTime : option Z
}.

Record ParsedTransactionMeta : Type := {
  logMessages : option (list string)
}.

Record ParsedTransactionWithMeta : Type := {
  meta : option ParsedTransactionMeta
}.

(** How an [async] function ends: with a value, with a thrown value, or not
    within the fuel it was given. *)
Inductive Outcome (A : Type) : Type :=
| Returned (a : A)
| Threw (e : Thrown)
| Pending.
Arguments Returned {A} a.
Arguments Threw {A} e.
Arguments Pending {A}.

Section Web3.
Context {P : Platform}.


Record AccountMeta : Type := {
  pubkey : PublicKey;
  isSigner : bool;
  isWritable : bool
}.

Record TransactionInstruction : Type := {
  programId : ProgramId;
  keys : list AccountMeta;
  data : InstructionData
}.

(** A transaction draft. *)
Record Transaction : Type := {
  instructions : list TransactionInstruction;
  feePayer : option PublicKey;
  recentBlockhash : option string
}.

(** [new Transaction()]. *)
Definition Transaction_new : Transaction :=
  {| instructions := []; feePayer := None; recentBlockhash := None |}.

(** [transaction.add(...items)]. *)
Definition Transaction_add (t : Transaction) (items : list TransactionInstruction)
  : Transaction :=
  {| instructions := instructions t ++ items;
     feePayer := feePayer t;
     recentBlockhash := recentBlockhash t |}.

(** [transaction.feePayer = account]. *)
Definition set_feePayer (t : Transaction) (payer : PublicKey) : Transaction :=
  {| instructions := instructions t;
     feePayer := Some payer;
     recentBlockhash := recentBlockhash t |}.

(** [transaction.recentBlockhash = blockhash]. *)
Definition set_recentBlockhash (t : Transaction) (blockhash : string) : Transaction :=
  {| instructions := instructions t;
     feePayer := feePayer t;
     recentBlockhash := Some blockhash |}.

(** [ComputeBudgetProgram.setComputeUnitPrice({ microLamports })]. *)
Definition ComputeBudgetProgram_setComputeUnitPrice (microLamports : Z)
  : TransactionInstruction :=
  {| programId := ComputeBudgetProgram_programId;
     keys := [];
     data := SetComputeUnitPrice microLamports |}.

(** [SystemProgram.transfer({ fromPubkey, toPubkey, lamports })]: the amount
    goes through [BigInt], which throws on a number that is no integer, and
    is then written into the eight bytes of the instruction's [u64] field,
    which throws on an integer outside [0, 2^64). *)
Definition SystemProgram_transfer (fromPubkey toPubkey : PublicKey) (lamports : float)
  : Result TransactionInstruction :=
  match BigInt lamports with
  | Some n =>
      if fits_u64 n
      then Ok {| programId := SystemProgram_programId;
                 keys := [ {| pubkey := fromPubkey; isSigner := true; isWritable := true |};
                           {| pubkey := toPubkey; isSigner := false; isWritable := true |} ];
                 data := SystemTransfer n |}
      else Throw (ThrownError "RangeError")
  | None => Throw (ThrownError "RangeError")
  end.


(** ** The outside world *)

(** A call that leaves the handler. *)
Inductive Call : Type :=
| Call_getSignaturesForAddress
    (address : PublicKey) (limit : Z) (before : option string) (until : Z)
| Call_getParsedTransactions
    (signatures : list string) (maxSupportedTransactionVersion : Z)
| Call_getMinimumBalanceForRentExemption (dataLength : Z)
| Call_getLatestBlockhash
| Call_createPostResponse (transaction : Transaction) (message : string).

(** The calls made so far, the latest first. *)
Definition Trace : Type := list Call.

(** The clock, the RPC node behind [connection] and [createPostResponse].
    Every answer may depend on the calls made before it.  [until] is the
    instant whose [toISOString()] the handler sends. *)
Record World : Type := {
  (** [Date.now()], in milliseconds. *)
  Date_now : Z;
  (** [new Connection(process.env.SOLANA_RPC || clusterApiUrl("devnet"))]:
      the name of the error it throws on a malformed endpoint, if any. *)
  Connection_new : option string;
  getSignaturesForAddress :
    Trace -> PublicKey -> Z -> option string -> Z -> Reply (list ConfirmedSignatureInfo);
  getParsedTransactions :
    Trace -> list string -> Z -> Reply (list (option ParsedTransactionWithMeta));
  getMinimumBalanceForRentExemption : Trace -> Z -> Reply float;
  getLatestBlockhash : Trace -> Reply string;
  createPostResponse : Trace -> Transaction -> string -> Reply ActionPostResponse
}.

(** ** The monad of the handlers *)

Definition Async (A : Type) : Type := World -> Trace -> Outcome A * Trace.

Definition ret {A : Type} (a : A) : Async A :=
  fun _ t => (Returned a, t).

Definition throw {A : Type} (e : Thrown) : Async A :=
  fun _ t => (Threw e, t).

Definition pending {A : Type} : Async A :=
  fun _ t => (Pending, t).

Definition bind {A B : Type} (m : Async A) (k : A -> Async B) : Async B :=
  fun w t =>
    match m w t with
    | (Returned a, t') => k a w t'
    | (Threw e, t') => (Threw e, t')
    | (Pending, t') => (Pending, t')
    end.

(** [try { m } catch (e) { handler e }]. *)
Definition try_catch {A : Type} (m : Async A) (handler : Thrown -> Async A) : Async A :=
  fun w t =>
    match m w t with
    | (Threw e, t') => handler e w t'
    | other => other
    end.

(** Synchronous code that may throw. *)
Definition lift {A : Type} (r : Result A) : Async A :=
  match r with
  | Ok a => ret a
  | Throw e => throw e
  end.

(** [await req.json()]. *)
Definition await_json (req : Request) : Async ActionPostRequest :=
  fun _ t =>
    match json req with
    | Resolved b => (Returned b, t)
    | Rejected error => (Threw (ThrownError error), t)
    end.

(** [await] of an outside call: the call is recorded, and a rejection is
    thrown as an [Error]. *)
Definition await {A : Type} (c : Call) (answer : World -> Trace -> Reply A) : Async A :=
  fun w t =>
    match answer w t with
    | Resolved a => (Returned a, c :: t)
    | Rejected error => (Threw (ThrownError error), c :: t)
    end.

(** [new PublicKey(value)] on a [string | PublicKey]. *)
Definition PublicKey_from (value : string + PublicKey) : Result PublicKey :=
  match value with
  | inl s =>
      match PublicKey_new s with
      | Some key => Ok key
      | None => Throw (ThrownError "Error")
      end
  | inr key => Ok key
  end.

(** [new Connection(...)]. *)
Definition connect : Async unit :=
  fun w t =>
    match Connection_new w with
    | None => (Returned tt, t)
    | Some error => (Threw (ThrownError error), t)
    end.

(** [Date.now()]. *)
Definition now : Async Z :=
  fun w t => (Returned (Date_now w), t).

(** The methods of [connection], and [createPostResponse]. *)
Definition connection_getSignaturesForAddress
  (address : PublicKey) (limit : Z) (before : option string) (until : Z)
  : Async (list ConfirmedSignatureInfo) :=
  await (Call_getSignaturesForAddress address limit before until)
        (fun w t => getSignaturesForAddress w t address limit before until).

Definition connection_getParsedTransactions
  (signatures : list string) (maxSupportedTransactionVersion : Z)
  : Async (list (option ParsedTransactionWithMeta)) :=
  await (Call_getParsedTransactions signatures maxSupportedTransactionVersion)
        (fun w t => getParsedTransactions w t signatures maxSupportedTransactionVersion).

Definition connection_getMinimumBalanceForRentExemption (dataLength : Z) : Async float :=
  await (Call_getMinimumBalanceForRentExemption dataLength)
        (fun w t => getMinimumBalanceForRentExemption w t dataLength).

Definition connection_getLatestBlockhash : Async string :=
  await Call_getLatestBlockhash (fun w t => getLatestBlockhash w t).

Definition await_createPostResponse (transaction : Transaction) (message : string)
  : Async ActionPostResponse :=
  await (Call_createPostResponse transaction message)
        (fun w t => createPostResponse w t transaction message).

(** The handlers' outer [catch (err)]: the thrown string, or a fixed text,
    as a 400 response. *)
Definition error_response (err : Thrown) : Response :=
  let message :=
    match err with
    | ThrownString s => s
    | ThrownError _ => "An unknown error occurred"
    end in
  Response_new message 400 ACTIONS_CORS_HEADERS.

(** A handler run from an empty trace. *)
Definition run {A : Type} (m : Async A) (w : World) : Outcome A * Trace := m w [].

End Web3.

Notation "x <- m ;; k" := (bind m (fun x => k))
  (at level 100, m at next level, right associativity).

(** ** [memo/route.ts] *)

Module Memo.
Section Route.
Context {P : Platform}.

(** [tx?.meta?.logMessages?.some(log => log.includes(message))]. *)
Definition logs_include (message : string) (tx : option ParsedTransactionWithMeta) : bool :=
  match tx with
  | Some {| meta := Some {| logMessages := Some logs |} |} =>
      existsb (fun log => includes log message) logs
  | _ => false
  end.

(** The [while (true)] loop of [checkForMessage] (lines 38-51), "fetch all
    signatures from the last 24 hours".  [fuel] bounds the number of pages
    awaited. *)
Fixpoint fetchAllSignatures (fuel : nat) (publicKey : PublicKey) (twentyFourHoursAgo : Z)
  (allSignatures : list string) (lastSignature : option string)
  : Async (list string) :=
  match fuel with
  | O => pending
  | S fuel' =>
      signatures <-
        connection_getSignaturesForAddress publicKey 100 lastSignature twentyFourHoursAgo ;;
      if Z.of_nat (length signatures) =? 0 then ret allSignatures
      else
        match nth_error signatures (length signatures - 1) with
        | None => throw (ThrownError "TypeError")
        | Some oldest =>
            let allSignatures := allSignatures ++ map signature signatures in
            let lastSignature := Some (signature oldest) in
            if nullish (blockTime oldest) 0 * 1000 <? twentyFourHoursAgo
            then ret allSignatures
            else fetchAllSignatures fuel' publicKey twentyFourHoursAgo
                                    allSignatures lastSignature
        end
  end.

(** The [for] loop of [checkForMessage] (lines 54-63), "process signatures in
    batches", from index [i].  [fuel] bounds the number of batches awaited. *)
Fixpoint processBatches (fuel : nat) (allSignatures : list string) (message : string)
  (batchSize : nat) (i : nat) : Async bool :=
  match fuel with
  | O => pending
  | S fuel' =>
      if (i <? length allSignatures)%nat then
        let batch := slice allSignatures i (i + batchSize) in
        transactions <- connection_getParsedTransactions batch 0 ;;
        if existsb (logs_include message) transactions then ret true
        else processBatches fuel' allSignatures message batchSize (i + batchSize)%nat
      else ret false
  end.

(** [checkForMessage(connection, accountPublicKey, message, batchSize)]. *)
Definition checkForMessage (fuel : nat) (accountPublicKey : string + PublicKey)
  (message : string) (batchSize : nat) : Async bool :=
  try_catch
    (publicKey <- lift (PublicKey_from accountPublicKey) ;;
     current <- now ;;
     let twentyFourHoursAgo := current - 24 * 60 * 60 * 1000 in
     allSignatures <- fetchAllSignatures fuel publicKey twentyFourHoursAgo [] None ;;
     processBatches fuel allSignatures message batchSize 0)
    (fun error => throw error).

(** [GET]. *)
Definition GET (req : Request) : Response :=
  let payload :=
    {| title := "Actions Example - Simple On-chain Memo";
       icon := URL_toString "/bun_blink.webp" (origin (url req));
       description := "Send a message on-chain using a Memo";
       label := "Send Memo";
       links := None |} in
  Response_json (GetBody payload) ACTIONS_CORS_HEADERS.

(** [OPTIONS]. *)
Definition OPTIONS : Request -> Response := GET.

(** The account the history scan of [POST] is given. *)
Definition scan_target : string := "YOUR_ACCOUNT_OR_PROGRAM_PUBLIC_KEY".

(** Lines 118-128 of [POST]: the memo payload chosen from the outcome of the
    history scan. *)
Definition messageResult (scan : Async bool) : Async string :=
  try_catch
    (found <- scan ;;
     ret (if found then "second message" else "initial message"))
    (fun error => ret "initial message").

(** The memo instruction of [POST]. *)
Definition memo_instruction (text : string) : TransactionInstruction :=
  {| programId := MEMO_PROGRAM_ID; keys := []; data := Utf8 text |}.

(** [POST], with the history scan it awaits as an argument. *)
Definition POST_with (scan : Async bool) (req : Request) : Async Response :=
  try_catch
    (body <- await_json req ;;
     match PublicKey_new (account body) with
     | None =>
         ret (Response_new ("Invalid " ++ dquote ++ "account" ++ dquote ++ " provided")
                           400 ACTIONS_CORS_HEADERS)
     | Some account =>
         _ <- connect ;;
         messageResult <- messageResult scan ;;
         let transaction :=
           Transaction_add Transaction_new
             [ ComputeBudgetProgram_setComputeUnitPrice 1000;
               memo_instruction messageResult ] in
         let transaction := set_feePayer transaction account in
         blockhash <- connection_getLatestBlockhash ;;
         let transaction := set_recentBlockhash transaction blockhash in
         payload <- await_createPostResponse transaction "Post this memo on-chain" ;;
         ret (Response_json (PostBody payload) ACTIONS_CORS_HEADERS)
     end)
    (fun err => ret (error_response err)).

(** [POST]. *)
Definition POST (fuel : nat) (req : Request) : Async Response :=
  POST_with (checkForMessage fuel (inl scan_target) "initial message" 100) req.

End Route.
End Memo.

(** ** [transfer-sol/const.ts] and [transfer-sol/route.ts]

    The copy of [checkForMessage] at the head of [transfer-sol/route.ts] is
    called by no handler and is left out. *)

Module Transfer.

(** The address literal of [const.ts]. *)
Definition DEFAULT_SOL_ADDRESS_literal : string :=
  "AEzZqXyPxWJrjrauScDWMyewnWhv6XwmwqGdXD5vDVd4".

(** [DEFAULT_SOL_AMOUNT]: the number literal [0.1]. *)
Definition DEFAULT_SOL_AMOUNT : float := 0x1.999999999999ap-4%float.

(** [try { r } catch (err) { handler err }] in synchronous code. *)
Definition try_ {A : Type} (r : Result A) (handler : Thrown -> Result A) : Result A :=
  match r with
  | Ok a => Ok a
  | Throw e => handler e
  end.

Definition and_then {A B : Type} (r : Result A) (k : A -> Result B) : Result B :=
  match r with
  | Ok a => k a
  | Throw e => Throw e
  end.

Section Route.
Context {P : Platform}.

(** [DEFAULT_SOL_ADDRESS], the value of
    [new PublicKey(DEFAULT_SOL_ADDRESS_literal)] when the module was loaded. *)
Variable DEFAULT_SOL_ADDRESS : PublicKey.

(** [validatedQueryParams(requestUrl)]: the pair [(amount, toPubkey)]. *)
Definition validatedQueryParams (requestUrl : URL) : Result (float * PublicKey) :=
  let params := searchParams requestUrl in
  and_then
    (try_
       (match searchParams_get params "to" with
        | Some to =>
            if truthy (Some to) then PublicKey_from (inl to) else Ok DEFAULT_SOL_ADDRESS
        | None => Ok DEFAULT_SOL_ADDRESS
        end)
       (fun err => Throw (ThrownString "Invalid input query parameter: to")))
    (fun toPubkey =>
       and_then
         (try_
            (let amount :=
               match searchParams_get params "amount" with
               | Some text =>
                   if truthy (Some text) then parseFloat text else DEFAULT_SOL_AMOUNT
               | None => DEFAULT_SOL_AMOUNT
               end in
             if (amount <=? 0)%float then Throw (ThrownString "amount is too small")
             else Ok amount)
            (fun err => Throw (ThrownString "Invalid input query parameter: amount")))
         (fun amount => Ok (amount, toPubkey))).

(** The metadata of [GET] for a destination and a request origin. *)
Definition payload_for (toPubkey : PublicKey) (requestOrigin : string) : ActionGetResponse :=
  let baseHref :=
    URL_toString ("/api/actions/transfer-sol?to=" ++ toBase58 toPubkey) requestOrigin in
  {| title := "Actions Example - Transfer Native SOL";
     icon := URL_toString "/bun_blink.webp" requestOrigin;
     description := "Transfer SOL to another Solana wallet";
     label := "Transfer";
     links :=
       Some
         [ {| action_label := "Send 1 SOL";
              href := baseHref ++ "&amount=" ++ "1";
              parameters := None |};
           {| action_label := "Send 5 SOL";
              href := baseHref ++ "&amount=" ++ "5";
              parameters := None |};
           {| action_label := "Send 10 SOL";
              href := baseHref ++ "&amount=" ++ "10";
              parameters := None |};
           {| action_label := "Send SOL";
              href := baseHref ++ "&amount={amount}";
              parameters :=
                Some [ {| parameter_name := "amount";
                          parameter_label := "Enter the amount of SOL to send";
                          parameter_required := true |} ] |} ] |}.

(** [GET]. *)
Definition GET (req : Request) : Response :=
  let requestUrl := url req in
  match validatedQueryParams requestUrl with
  | Ok (_, toPubkey) =>
      Response_json (GetBody (payload_for toPubkey (origin requestUrl)))
                    ACTIONS_CORS_HEADERS
  | Throw err => error_response err
  end.

(** [OPTIONS]. *)
Definition OPTIONS : Request -> Response := GET.

(** The text thrown when the transfer would leave the destination below the
    rent-exempt minimum. *)
Definition rent_error (toPubkey : PublicKey) : string :=
  "account may not be rent exempt: " ++ toBase58 toPubkey.

(** [POST]. *)
Definition POST (req : Request) : Async Response :=
  try_catch
    (let requestUrl := url req in
     validated <- lift (validatedQueryParams requestUrl) ;;
     let '(amount, toPubkey) := validated in
     body <- await_json req ;;
     match PublicKey_new (account body) with
     | None =>
         ret (Response_new ("Invalid " ++ dquote ++ "account" ++ dquote ++ " provided")
                           400 ACTIONS_CORS_HEADERS)
     | Some account =>
         _ <- connect ;;
         minimumBalance <- connection_getMinimumBalanceForRentExemption 0 ;;
         if (amount * LAMPORTS_PER_SOL <? minimumBalance)%float
         then throw (ThrownString (rent_error toPubkey))
         else
           let transaction := Transaction_new in
           let transaction := set_feePayer transaction account in
           transfer <-
             lift (SystemProgram_transfer account toPubkey (amount * LAMPORTS_PER_SOL)) ;;
           let transaction := Transaction_add transaction [transfer] in
           let transaction := set_feePayer transaction account in
           blockhash <- connection_getLatestBlockhash ;;
           let transaction := set_recentBlockhash transaction blockhash in
           payload <-
             await_createPostResponse transaction
               ("Send " ++ Number_toString amount ++ " SOL to " ++ toBase58 toPubkey) ;;
           ret (Response_json (PostBody payload) ACTIONS_CORS_HEADERS)
     end)
    (fun err => ret (error_response err)).

End Route.
End Transfer.

(** ** Vocabulary of the properties *)

Section Vocabulary.
Context {P : Platform}.

(** The oldest entry of a page, [signatures[signatures.length - 1]]. *)
Definition oldest_of (page : list ConfirmedSignatureInfo) : option ConfirmedSignatureInfo :=
  nth_error page (length page - 1).

(** The request for one page of signatures. *)
Definition page_request (publicKey : PublicKey) (before : option string) (until : Z) : Call :=
  Call_getSignaturesForAddress publicKey 100 before until.

(** The drafts handed to [createPostResponse] in a trace. *)
Fixpoint handed (t : Trace) : list Transaction :=
  match t with
  | [] => []
  | Call_createPostResponse transaction _ :: rest => transaction :: handed rest
  | _ :: rest => handed rest
  end.

(** The response to a malformed [account]. *)
Definition invalid_account : Response :=
  Response_new ("Invalid " ++ dquote ++ "account" ++ dquote ++ " provided")
               400 ACTIONS_CORS_HEADERS.

(** The memo payload [POST] derives from the outcome of the scan. *)
Definition payload_after (scanned : Outcome bool) : string :=
  match scanned with
  | Returned true => "second message"
  | _ => "initial message"
  end.

(** The draft of the Memo provider with the memo [text]. *)
Definition memo_draft (text : string) (payer : PublicKey) (blockhash : string) : Transaction :=
  {| instructions :=
       [ {| programId := ComputeBudgetProgram_programId;
            keys := [];
            data := SetComputeUnitPrice 1000 |};
         {| programId := MEMO_PROGRAM_ID; keys := []; data := Utf8 text |} ];
     feePayer := Some payer;
     recentBlockhash := Some blockhash |}.

(** The draft of the Transfer provider that moves [lamports]. *)
Definition transfer_draft (payer toPubkey : PublicKey) (lamports : Z) (blockhash : string)
  : Transaction :=
  {| instructions :=
       [ {| programId := SystemProgram_programId;
            keys := [ {| pubkey := payer; isSigner := true; isWritable := true |};
                      {| pubkey := toPubkey; isSigner := false; isWritable := true |} ];
            data := SystemTransfer lamports |} ];
     feePayer := Some payer;
     recentBlockhash := Some blockhash |}.

(** The message of the Transfer provider. *)
Definition transfer_message (amount : float) (toPubkey : PublicKey) : string :=
  "Send " ++ Number_toString amount ++ " SOL to " ++ toBase58 toPubkey.




(** An outcome that, if it is a response, carries the CORS headers, and is
    never a thrown value. *)
Definition with_cors (o : Outcome Response) : Prop :=
  match o with
  | Returned r => headers r = ACTIONS_CORS_HEADERS
  | Threw _ => False
  | Pending => True
  end.

(** A metadata payload without what [GET] derives from the origin of the
    request: the icon and the hrefs of the actions. *)
Definition without_origin (payload : ActionGetResponse) : ActionGetResponse :=
  {| title := title payload;
     icon := "";
     description := description payload;
     label := label payload;
     links :=
       option_map
         (map (fun a => {| action_label := action_label a;
                           href := "";
                           parameters := parameters a |}))
         (links payload) |}.

Definition response_without_origin (r : Response) : Response :=
  {| status := status r;
     headers := headers r;
     body :=
       match body r with
       | GetBody payload => GetBody (without_origin payload)
       | other => other
       end |}.

(** *** Reading a trace *)

(** The signature batches of the transaction fetches of a trace, the
    earliest first. *)
Fixpoint batches_fetched (t : Trace) : list (list string) :=
  match t with
  | [] => []
  | Call_getParsedTransactions signatures _ :: rest => batches_fetched rest ++ [signatures]
  | _ :: rest => batches_fetched rest
  end.

(** The signatures the node listed in answer to the page requests of a
    trace, the earliest first.  The answer to a call is the one the node
    gives after the calls before it. *)
Fixpoint signatures_listed (w : World) (t : Trace) : list string :=
  match t with
  | [] => []
  | Call_getSignaturesForAddress address limit before until :: rest =>
      signatures_listed w rest ++
      match getSignaturesForAddress w rest address limit before until with
      | Resolved page => map signature page
      | Rejected _ => []
      end
  | _ :: rest => signatures_listed w rest
  end.

(** Whether a transaction fetch of a trace was answered with a transaction
    whose log includes [message]. *)
Fixpoint hit (w : World) (message : string) (t : Trace) : bool :=
  match t with
  | [] => false
  | Call_getParsedTransactions signatures version :: rest =>
      match getParsedTransactions w rest signatures version with
      | Resolved transactions => existsb (Memo.logs_include message) transactions
      | Rejected _ => false
      end
      || hit w message rest
  | _ :: rest => hit w message rest
  end.

(** The error with which the node rejected the latest call of a trace, if it
    did. *)
Definition rejection (w : World) (t : Trace) : option string :=
  let error_of {A : Type} (r : Reply A) : option string :=
    match r with
    | Resolved _ => None
    | Rejected error => Some error
    end in
  match t with
  | [] => None
  | Call_getSignaturesForAddress address limit before until :: rest =>
      error_of (getSignaturesForAddress w rest address limit before until)
  | Call_getParsedTransactions signatures version :: rest =>
      error_of (getParsedTransactions w rest signatures version)
  | Call_getMinimumBalanceForRentExemption dataLength :: rest =>
      error_of (getMinimumBalanceForRentExemption w rest dataLength)
  | Call_getLatestBlockhash :: rest => error_of (getLatestBlockhash w rest)
  | Call_createPostResponse transaction message :: rest =>
      error_of (createPostResponse w rest transaction message)
  end.

(** A request for a page of the signatures of [publicKey] back to [until]. *)
Definition is_page_request (publicKey : PublicKey) (until : Z) (c : Call) : Prop :=
  exists before, c = page_request publicKey before until.

(** A fetch of at most [batchSize] transactions, of any version. *)
Definition is_batch_fetch (batchSize : nat) (c : Call) : Prop :=
  exists signatures,
    c = Call_getParsedTransactions signatures 0 /\ (length signatures <= batchSize)%nat.

(** The response to an error that is not a thrown string. *)
Definition unknown_error : Response :=
  Response_new "An unknown error occurred" 400 ACTIONS_CORS_HEADERS.

(** The texts with which the query validator fails. *)
Definition query_refusals : list string :=
  [ "Invalid input query parameter: to"; "Invalid input query parameter: amount" ].

(** The texts of the 400 responses of [POST] that do not come from the
    query. *)
Definition body_refusals : list string :=
  [ ("Invalid " ++ dquote ++ "account" ++ dquote ++ " provided")%string;
    "An unknown error occurred" ].

(** A 200 response with a JSON payload of the kind [kind], or a 400 response
    with one of the [texts]. *)
Definition answers (kind : Body -> Prop) (texts : string -> Prop) (r : Response) : Prop :=
  (exists payload, kind payload /\ r = Response_json payload ACTIONS_CORS_HEADERS)
  \/ (exists text, texts text /\ r = Response_new text 400 ACTIONS_CORS_HEADERS).

Definition is_metadata (b : Body) : Prop := exists payload, b = GetBody payload.

(** An outcome that is such an answer with a transaction, or still pending,
    and never a thrown value. *)
Definition answers_if_ended (texts : string -> Prop) (o : Outcome Response) : Prop :=
  match o with
  | Returned r =>
      answers (fun b => exists payload, b = PostBody payload) texts r
  | Threw _ => False
  | Pending => True
  end.

Definition is_transaction (b : Body) : Prop := exists payload, b = PostBody payload.

(** A draft whose fee payer is the account of the request body and whose
    recent block hash is an answer of the node. *)
Definition names_payer_and_block (req : Request) (w : World) (draft : Transaction) : Prop :=
  exists posted payer t blockhash,
    json req = Resolved posted
    /\ PublicKey_new (account posted) = Some payer
    /\ feePayer draft = Some payer
    /\ getLatestBlockhash w t = Resolved blockhash
    /\ recentBlockhash draft = Some blockhash.

(** A response that is the payload [createPostResponse] resolved with on the
    latest call of the trace [t]. *)
Definition is_payload_of_latest_call (w : World) (t : Trace) (r : Response) : Prop :=
  exists draft message rest payload,
    t = Call_createPostResponse draft message :: rest
    /\ createPostResponse w rest draft message = Resolved payload
    /\ r = Response_json (PostBody payload) ACTIONS_CORS_HEADERS.

(** The start of every action href of the Transfer provider. *)
Definition action_base (toPubkey : PublicKey) (requestOrigin : string) : string :=
  (requestOrigin ++ "/api/actions/transfer-sol?to=" ++ toBase58 toPubkey ++ "&amount=")%string.

End Vocabulary.

(** ** A reference platform

    An executable instance of [Platform], after the behaviour of
    [@solana/web3.js] ([PublicKey] decodes base58 with [bs58] and accepts
    exactly 32 bytes), of ECMAScript ([parseFloat], [Number::toString],
    [BigInt]) on binary64 numbers, and of [@solana/actions]
    ([ACTIONS_CORS_HEADERS]).  The handlers are run on it at concrete
    requests. *)

Module Reference.

(** *** Base58 *)

Definition ALPHABET : string := BASE58.

Fixpoint index_of (c : ascii) (s : string) (i : Z) : option Z :=
  match s with
  | EmptyString => None
  | String d s' => if Ascii.eqb c d then Some i else index_of c s' (i + 1)
  end.

Definition base58_digit (c : ascii) : option Z := index_of c ALPHABET 0.

(** The number a base58 string denotes; [None] on a character outside the
    alphabet. *)
Fixpoint base58_value (s : string) (acc : Z) : option Z :=
  match s with
  | EmptyString => Some acc
  | String c s' =>
      match base58_digit c with
      | Some d => base58_value s' (acc * 58 + d)
      | None => None
      end
  end.

(** The leading ['1']s, each of which decodes to a zero byte. *)
Fixpoint leading_ones (s : string) : Z :=
  match s with
  | String "1"%char s' => 1 + leading_ones s'
  | _ => 0
  end.

(** The number of bytes of a natural number, none for zero. *)
Definition byte_length (n : Z) : Z :=
  if n <=? 0 then 0 else Z.log2 n / 8 + 1.

(** [new PublicKey(s)]: the decoded number, when [bs58.decode(s)] has 32
    bytes. *)
Definition bs58_PublicKey (s : string) : option Z :=
  match base58_value s 0 with
  | Some n => if leading_ones s + byte_length n =? 32 then Some n else None
  | None => None
  end.

Fixpoint base58_digits (fuel : nat) (n : Z) (acc : string) : string :=
  match fuel with
  | O => acc
  | S fuel' =>
      if n <=? 0 then acc
      else
        match String.get (Z.to_nat (n mod 58)) ALPHABET with
        | Some c => base58_digits fuel' (n / 58) (String c acc)
        | None => acc
        end
  end.

Fixpoint ones (k : nat) : string :=
  match k with
  | O => EmptyString
  | S k' => String "1"%char (ones k')
  end.

(** [key.toBase58()]: [bs58.encode] of the 32 bytes of the key. *)
Definition bs58_toBase58 (key : Z) : string :=
  (ones (Z.to_nat (32 - byte_length key))
   ++ base58_digits (Z.to_nat (Z.log2 key) + 1) key EmptyString)%string.

(** *** Numbers *)

Definition code (c : ascii) : Z := Z.of_nat (nat_of_ascii c).

Definition is_digit (c : ascii) : bool := (48 <=? code c) && (code c <=? 57).

(** The white space and line terminators of ASCII: TAB, LF, VT, FF, CR and
    the space. *)
Definition is_space (c : ascii) : bool :=
  ((9 <=? code c) && (code c <=? 13)) || (code c =? 32).

(** The white space and line terminators beyond ASCII, by the bytes of their
    UTF-8 form: U+00A0 on two bytes; U+1680, U+2000 to U+200A, U+2028,
    U+2029, U+202F, U+205F, U+3000 and U+FEFF on three. *)
Definition is_space2 (c d : ascii) : bool :=
  (code c =? 194) && (code d =? 160).

Definition is_space3 (c d e : ascii) : bool :=
  ((code c =? 225) && (code d =? 154) && (code e =? 128))
  || ((code c =? 226) && (code d =? 128)
      && (((128 <=? code e) && (code e <=? 138))
          || (code e =? 168) || (code e =? 169) || (code e =? 175)))
  || ((code c =? 226) && (code d =? 129) && (code e =? 159))
  || ((code c =? 227) && (code d =? 128) && (code e =? 128))
  || ((code c =? 239) && (code d =? 187) && (code e =? 191)).

(** Drops the leading white space and line terminators. *)
Fixpoint skip_spaces (s : string) : string :=
  match s with
  | String c s1 =>
      if is_space c then skip_spaces s1
      else
        match s1 with
        | String d s2 =>
            if is_space2 c d then skip_spaces s2
            else
              match s2 with
              | String e s3 => if is_space3 c d e then skip_spaces s3 else s
              | EmptyString => s
              end
        | EmptyString => s
        end
  | EmptyString => s
  end.

(** Reads decimal digits: their value on top of [acc], how many were read,
    and the rest of the string. *)
Fixpoint read_digits (s : string) (acc count : Z) : Z * Z * string :=
  match s with
  | String c s' =>
      if is_digit c then read_digits s' (acc * 10 + (code c - 48)) (count + 1)
      else (acc, count, s)
  | EmptyString => (acc, count, s)
  end.

Definition read_sign (s : string) : bool * string :=
  match s with
  | String "-"%char s' => (true, s')
  | String "+"%char s' => (false, s')
  | _ => (false, s)
  end.

(** The value of an [ExponentPart] at the head of [s], [0] without one. *)
Definition read_exponent (s : string) : Z :=
  match s with
  | String c s1 =>
      if (Ascii.eqb c "e" || Ascii.eqb c "E")%bool then
        let (negative, s2) := read_sign s1 in
        let '(v, count, _) := read_digits s2 0 0 in
        if count =? 0 then 0 else if negative then - v else v
      else 0
  | EmptyString => 0
  end.

(** The binary64 number nearest to [m * 10 ^ e], for [0 <= m]. *)
Definition decimal (negative : bool) (m e : Z) : spec_float :=
  match m with
  | Z.pos p =>
      if 0 <=? e
      then binary_normalize 53 1024
             (if negative then - (m * 10 ^ e) else m * 10 ^ e) 0 false
      else SFdiv 53 1024 (S754_finite negative p 0)
                         (S754_finite false (Z.to_pos (10 ^ (- e))) 0)
  | _ => S754_zero negative
  end.

(** [parseFloat]: the longest prefix of the trimmed input that is a
    [StrDecimalLiteral], [NaN] without one. *)
Definition js_parseFloat (input : string) : float :=
  let (negative, s) := read_sign (skip_spaces input) in
  if String.prefix "Infinity" s then (if negative then neg_infinity else infinity)
  else
    let '(whole, whole_count, s1) := read_digits s 0 0 in
    let '(m, fraction_count, s2) :=
      match s1 with
      | String "."%char r => read_digits r whole 0
      | _ => (whole, 0, s1)
      end in
    if whole_count + fraction_count =? 0 then nan
    else SF2Prim (decimal negative m (read_exponent s2 - fraction_count)).

(** [BigInt(x)]: the integer [x] is, if it is one. *)
Definition js_BigInt (x : float) : option Z :=
  match Prim2SF x with
  | S754_zero _ => Some 0
  | S754_finite negative m e =>
      let magnitude :=
        if 0 <=? e then Some (Z.pos m * 2 ^ e)
        else if Z.pos m mod 2 ^ (- e) =? 0 then Some (Z.pos m / 2 ^ (- e))
        else None in
      option_map (fun z => if negative then - z else z) magnitude
  | _ => None
  end.

Fixpoint decimal_digits (fuel : nat) (n : Z) (acc : string) : string :=
  match fuel with
  | O => acc
  | S fuel' =>
      let acc' := String (ascii_of_nat (Z.to_nat (48 + n mod 10))) acc in
      if n <? 10 then acc' else decimal_digits fuel' (n / 10) acc'
  end.

Definition integer_text (n : Z) : string :=
  decimal_digits (Z.to_nat (Z.log2 n) + 1) n EmptyString.

Fixpoint zeros (k : nat) : string :=
  match k with
  | O => EmptyString
  | S k' => String "0"%char (zeros k')
  end.

(** [num / den < 10 ^ j]. *)
Definition below_power (num den j : Z) : bool :=
  if 0 <=? j then num <? 10 ^ j * den else num * 10 ^ (- j) <? den.

Fixpoint raise_exponent (fuel : nat) (num den n : Z) : Z :=
  match fuel with
  | O => n
  | S fuel' =>
      if below_power num den n then n else raise_exponent fuel' num den (n + 1)
  end.

Fixpoint lower_exponent (fuel : nat) (num den n : Z) : Z :=
  match fuel with
  | O => n
  | S fuel' =>
      if below_power num den (n - 1) then lower_exponent fuel' num den (n - 1) else n
  end.

(** The [n] with [10 ^ (n - 1) <= num / den < 10 ^ n]. *)
Definition decimal_exponent (num den : Z) : Z :=
  let guess := (Z.log2 num - Z.log2 den) * 30103 / 100000 in
  lower_exponent 4 num den (raise_exponent 4 num den guess).

Definition SF_same (x y : spec_float) : bool :=
  match SFcompare x y with
  | Some Eq => true
  | _ => false
  end.

(** A [k]-digit integer [s] next to [num / den * 10 ^ (k - n)] such that
    [s * 10 ^ (n - k)] reads back as [x]; the nearer one first. *)
Definition candidate (x : spec_float) (num den n k : Z) : option Z :=
  let p := k - n in
  let scaled_num := if 0 <=? p then num * 10 ^ p else num in
  let scaled_den := if 0 <=? p then den else den * 10 ^ (- p) in
  let low := scaled_num / scaled_den in
  let remainder := scaled_num mod scaled_den in
  let high := low + 1 in
  let reads_back s := SF_same (decimal false s (- p)) x in
  let low_first :=
    (2 * remainder <? scaled_den) || ((2 * remainder =? scaled_den) && Z.even low) in
  let first := if low_first then low else high in
  let second := if low_first then high else low in
  if reads_back first then Some first
  else if reads_back second then Some second
  else None.

(** The fewest digits that read back as [x]. *)
Fixpoint shortest (fuel : nat) (x : spec_float) (num den n k : Z) : Z * Z :=
  match fuel with
  | O => (0, k)
  | S fuel' =>
      match candidate x num den n k with
      | Some s => (s, k)
      | None => shortest fuel' x num den n (k + 1)
      end
  end.

(** [Number::toString] of the positive finite number [m * 2 ^ e]. *)
Definition positive_text (x : spec_float) (m : positive) (e : Z) : string :=
  let num := if 0 <=? e then Z.pos m * 2 ^ e else Z.pos m in
  let den := if 0 <=? e then 1 else 2 ^ (- e) in
  let n0 := decimal_exponent num den in
  let '(s0, k) := shortest 17 x num den n0 1 in
  let carried := s0 =? 10 ^ k in
  let s := if carried then 10 ^ (k - 1) else s0 in
  let n := if carried then n0 + 1 else n0 in
  let d := integer_text s in
  if (k <=? n) && (n <=? 21) then (d ++ zeros (Z.to_nat (n - k)))%string
  else if (0 <? n) && (n <=? 21) then
    (substring 0 (Z.to_nat n) d ++ "."
     ++ substring (Z.to_nat n) (Z.to_nat (k - n)) d)%string
  else if (-6 <? n) && (n <=? 0) then ("0." ++ zeros (Z.to_nat (- n)) ++ d)%string
  else
    let exponent := n - 1 in
    let sign_text := if exponent <? 0 then "-" else "+" in
    let mantissa :=
      if k =? 1 then d
      else (substring 0 1 d ++ "." ++ substring 1 (Z.to_nat (k - 1)) d)%string in
    (mantissa ++ "e" ++ sign_text ++ integer_text (Z.abs exponent))%string.

(** [Number::toString]. *)
Definition js_Number_toString (x : float) : string :=
  match Prim2SF x with
  | S754_nan => "NaN"
  | S754_zero _ => "0"
  | S754_infinity negative => if negative then "-Infinity" else "Infinity"
  | S754_finite negative m e =>
      ((if negative then "-" else "")
       ++ positive_text (S754_finite false m e) m e)%string
  end.

(** *** The platform *)

Definition cors_headers : Headers :=
  [ ("Access-Control-Allow-Origin", "*");
    ("Access-Control-Allow-Methods", "GET,POST,PUT,OPTIONS");
    ("Access-Control-Allow-Headers",
     "Content-Type, Authorization, Content-Encoding, Accept-Encoding");
    ("Content-Type", "application/json") ].

Definition platform : Platform :=
  {| PublicKey := Z;
     PublicKey_new := bs58_PublicKey;
     toBase58 := bs58_toBase58;
     parseFloat := js_parseFloat;
     Number_toString := js_Number_toString;
     BigInt := js_BigInt;
     ACTIONS_CORS_HEADERS := cors_headers |}.

End Reference.

(** ** Concrete requests and worlds

    Inputs on which the handlers are run: requests to a server at
    [https://actions.example], and RPC nodes with a scripted signature
    history. *)

Module Sample.

Definition P : Platform := Reference.platform.

(** The key of [const.ts], decoded. *)
Definition key : @PublicKey P :=
  match Reference.bs58_PublicKey Transfer.DEFAULT_SOL_ADDRESS_literal with
  | Some k => k
  | None => 0
  end.

(** A node whose signature pages are [pages] (by the calls made before and
    the [before] cursor) and whose transactions all carry the log lines
    [logs]; the rent-exempt minimum of an empty account is 890880
    lamports. *)
Definition node (clock : Z)
  (pages : @Trace P -> option string -> list ConfirmedSignatureInfo)
  (logs : list string) : @World P :=
  {| Date_now := clock;
     Connection_new := None;
     getSignaturesForAddress := fun t _ _ before _ => Resolved (pages t before);
     getParsedTransactions :=
       fun _ signatures _ =>
         Resolved (map (fun _ => Some {| meta := Some {| logMessages := Some logs |} |})
                       signatures);
     getMinimumBalanceForRentExemption := fun _ _ => Resolved 890880%float;
     getLatestBlockhash := fun _ => Resolved "EkSnNWid2cvwEVnVx9aBqawnmiCNiDgp3gUdkDPTKN1N";
     createPostResponse :=
       fun _ _ message =>
         Resolved {| post_transaction := "AQAAAAAAAAAA"; post_message := message |} |}.

(** 2023-11-15T22:13:20Z, in milliseconds; 24 hours before it is
    [1699999999000]. *)
Definition clock : Z := 1700086399000.

(** Every page holds one signature without [blockTime]; there is always a
    further page. *)
Definition untimed_pages (_ : @Trace P) (_ : option string)
  : list ConfirmedSignatureInfo :=
  [ {| signature := "3Zk1"; blockTime := None |} ].

Definition untimed_node : @World P := node clock untimed_pages [].

(** The first page ends with a signature whose [blockTime] is exactly the
    start of the window of [boundary_clock]; the second page holds an older
    signature; there is no third page. *)
Definition boundary_clock : Z := 1700086400000.

Definition boundary_pages (_ : @Trace P) (before : option string)
  : list ConfirmedSignatureInfo :=
  match before with
  | None => [ {| signature := "5VfY"; blockTime := Some 1700050000 |};
              {| signature := "4Qbn"; blockTime := Some 1700000000 |} ]
  | Some "4Qbn" => [ {| signature := "2Lmw"; blockTime := Some 1699990000 |} ]
  | Some _ => []
  end.

Definition boundary_node : @World P := node boundary_clock boundary_pages [].

(** One recent signature, whose transaction logged the marker. *)
Definition marked_pages (_ : @Trace P) (before : option string)
  : list ConfirmedSignatureInfo :=
  match before with
  | None => [ {| signature := "5VfY"; blockTime := Some 1700050000 |} ]
  | Some _ => []
  end.

Definition marked_node : @World P :=
  node clock marked_pages ["Program log: Memo (len 15): initial message"].

Definition unmarked_node : @World P :=
  node clock marked_pages ["Program log: Memo (len 5): hello"].

(** A request with the query [query] and the JSON body [{ account }]. *)
Definition request (query : list (string * string)) (account : string) : Request :=
  {| url := {| origin := "https://actions.example";
               pathname := "/api/actions/transfer-sol";
               searchParams := query;
               hash := "" |};
     json := Resolved {| account := account |} |}.

(** The start of the 24-hour window of [clock] and of [boundary_clock]. *)
Definition window : Z := clock - 24 * 60 * 60 * 1000.

Definition boundary_window : Z := boundary_clock - 24 * 60 * 60 * 1000.

Definition untimed_entry : ConfirmedSignatureInfo :=
  {| signature := "3Zk1"; blockTime := None |}.

Definition boundary_entry : ConfirmedSignatureInfo :=
  {| signature := "4Qbn"; blockTime := Some 1700000000 |}.

Definition blockhash : string := "EkSnNWid2cvwEVnVx9aBqawnmiCNiDgp3gUdkDPTKN1N".

(** The history scan of the Memo provider, aimed at [key]. *)
Definition scan_of_key : @Async P bool :=
  Memo.checkForMessage 5 (inr key) "initial message" 100.

(** The calls of [scan_of_key] on [marked_node], the latest first. *)
Definition scan_trace : @Trace P :=
  [ Call_getParsedTransactions ["5VfY"] 0;
    page_request key (Some "5VfY") window;
    page_request key None window ].

(** A request with the origin and the query of [request query account] and
    nothing else in common with it. *)
Definition other_request (query : list (string * string)) : Request :=
  {| url := {| origin := "https://actions.example";
               pathname := "/api/actions/memo";
               searchParams := query;
               hash := "#top" |};
     json := Rejected "SyntaxError" |}.


(** Every page holds one signature from inside the window; there is always
    a further page. *)
Definition endless_pages (_ : @Trace P) (_ : option string) : list ConfirmedSignatureInfo :=
  [ {| signature := "5VfY"; blockTime := Some 1700050000 |} ].

Definition endless_node : @World P := node clock endless_pages [].

(** A node that lists the signatures of [marked_pages] and rejects every
    fetch of transactions. *)
Definition failing_node : @World P :=
  {| Date_now := clock;
     Connection_new := None;
     getSignaturesForAddress := fun t _ _ before _ => Resolved (marked_pages t before);
     getParsedTransactions := fun _ _ _ => Rejected "SolanaJSONRPCError";
     getMinimumBalanceForRentExemption := fun _ _ => Rejected "SolanaJSONRPCError";
     getLatestBlockhash := fun _ => Rejected "SolanaJSONRPCError";
     createPostResponse := fun _ _ _ => Rejected "CreatePostResponseError" |}.

End Sample.


(* ================================================================== *)
(** * Part II. Properties *)
(* ================================================================== *)

Lemma Returned_inj {A : Type} (a b : A) : Returned a = Returned b -> a = b.
Proof. intros Heq. now injection Heq. Qed.

(** ** Strings *)

Lemma prefix_refl (s : string) : String.prefix s s = true.
Proof.
  induction s as [|c s IH]; simpl; [reflexivity|].
  destruct (ascii_dec c c) as [_|ne]; [exact IH | contradiction].
Qed.

Lemma includes_refl (s : string) : includes s s = true.
Proof.
  destruct s; simpl; [reflexivity|].
  destruct (ascii_dec a a) as [_|ne]; [|contradiction].
  now rewrite prefix_refl.
Qed.

(** A string includes each of its suffixes. *)
Lemma includes_suffix (a b : string) : includes (a ++ b) b = true.
Proof.
  induction a as [|c a IH]; simpl.
  - apply includes_refl.
  - rewrite IH. apply orb_true_r.
Qed.

(** Splits on what the goal branches on next. *)
Ltac branch :=
  cbv zeta;
  match goal with
  | |- context [match ?x with _ => _ end] => destruct x
  | |- context [if ?b then _ else _] => destruct b
  end.

Section Properties.
Context {P : Platform}.

(** ** The history scanner *)

(** One turn of the paging loop. *)
Lemma fetchAllSignatures_step (fuel : nat) (publicKey : PublicKey) (windowStart : Z)
  (allSignatures : list string) (before : option string) (w : World) (t : Trace) :
  Memo.fetchAllSignatures (S fuel) publicKey windowStart allSignatures before w t =
  let t' := page_request publicKey before windowStart :: t in
  match getSignaturesForAddress w t publicKey 100 before windowStart with
  | Rejected error => (Threw (ThrownError error), t')
  | Resolved [] => (Returned allSignatures, t')
  | Resolved page =>
      match oldest_of page with
      | None => (Threw (ThrownError "TypeError"), t')
      | Some oldest =>
          if nullish (blockTime oldest) 0 * 1000 <? windowStart
          then (Returned (allSignatures ++ map signature page), t')
          else Memo.fetchAllSignatures fuel publicKey windowStart
                 (allSignatures ++ map signature page) (Some (signature oldest)) w t'
      end
  end.
Proof.
  cbn [Memo.fetchAllSignatures].
  unfold bind, connection_getSignaturesForAddress, await, page_request, oldest_of.
  destruct (getSignaturesForAddress w t publicKey 100 before windowStart)
    as [page|error]; [|reflexivity].
  destruct page as [|s page]; [reflexivity|].
  change (Z.of_nat (length (s :: page)) =? 0) with false. cbv iota.
  destruct (nth_error (s :: page) (length (s :: page) - 1)) as [oldest|]; [|reflexivity].
  destruct (nullish (blockTime oldest) 0 * 1000 <? windowStart); reflexivity.
Qed.

(** The oldest entry of a page that is not empty. *)
Lemma oldest_of_nonempty (s : ConfirmedSignatureInfo) (page : list ConfirmedSignatureInfo) :
  exists oldest, oldest_of (s :: page) = Some oldest.
Proof.
  unfold oldest_of.
  destruct (nth_error (s :: page) (length (s :: page) - 1)) as [o|] eqn:E; [now exists o|].
  apply nth_error_None in E. simpl in E. lia.
Qed.

(** Every turn of the paging loop adds its request to the trace, below
    whatever follows. *)
Lemma fetchAllSignatures_trace (fuel : nat) :
  forall (publicKey : PublicKey) (windowStart : Z) (allSignatures : list string)
         (before : option string) (w : World) (t : Trace),
  exists later,
    snd (Memo.fetchAllSignatures (S fuel) publicKey windowStart allSignatures before w t)
    = later ++ page_request publicKey before windowStart :: t.
Proof.
  induction fuel as [|fuel IH]; intros publicKey windowStart allSignatures before w t;
    rewrite fetchAllSignatures_step; cbv zeta;
    destruct (getSignaturesForAddress w t publicKey 100 before windowStart) as [page|error];
    try (exists []; reflexivity);
    (destruct page as [|s page]; [exists []; reflexivity|]);
    (destruct (oldest_of (s :: page)) as [oldest|]; [|exists []; reflexivity]);
    (destruct (nullish (blockTime oldest) 0 * 1000 <? windowStart);
     [exists []; reflexivity|]).
  - exists []. reflexivity.
  - destruct (IH publicKey windowStart (allSignatures ++ map signature (s :: page))
                 (Some (signature oldest)) w
                 (page_request publicKey before windowStart :: t)) as [later E].
    rewrite E.
    exists (later ++ [page_request publicKey (Some (signature oldest)) windowStart]).
    now rewrite <- app_assoc.
Qed.

(** C1, as amended.  A page whose oldest entry has no [blockTime] is read
    as one whose oldest entry is timed at the epoch ([blockTime ?? 0]).  Its
    signatures are accumulated, and whenever the window starts after the
    epoch the paging loop stops there, having made this one request; only a
    window that starts at or before the epoch lets it go on to the next
    page. *)
Theorem missing_blockTime_counts_as_epoch
  (fuel : nat) (publicKey : PublicKey) (windowStart : Z) (allSignatures : list string)
  (before : option string) (w : World) (t : Trace)
  (page : list ConfirmedSignatureInfo) (oldest : ConfirmedSignatureInfo) :
  getSignaturesForAddress w t publicKey 100 before windowStart = Resolved page ->
  oldest_of page = Some oldest ->
  blockTime oldest = None ->
  (0 < windowStart ->
   Memo.fetchAllSignatures (S fuel) publicKey windowStart allSignatures before w t
   = (Returned (allSignatures ++ map signature page),
      page_request publicKey before windowStart :: t))
  /\
  (windowStart <= 0 ->
   Memo.fetchAllSignatures (S fuel) publicKey windowStart allSignatures before w t
   = Memo.fetchAllSignatures fuel publicKey windowStart
       (allSignatures ++ map signature page) (Some (signature oldest)) w
       (page_request publicKey before windowStart :: t)).
Proof.
  intros Hreply Holdest Hnull.
  rewrite fetchAllSignatures_step, Hreply. cbv zeta.
  destruct page as [|s page]; [discriminate Holdest|].
  rewrite Holdest, Hnull. cbn [nullish].
  split; intros Hw.
  - destruct (Z.ltb_spec (0 * 1000) windowStart); [reflexivity|lia].
  - destruct (Z.ltb_spec (0 * 1000) windowStart); [lia|reflexivity].
Qed.

(** C4, as amended.  After a page has arrived, the paging loop makes no
    further request exactly when the page is empty or the time of its oldest
    entry (seconds, the epoch when missing) times 1000 is strictly before
    the start of the window; it then returns the signatures accumulated so
    far, this page included.  Otherwise, and so for an oldest entry timed
    exactly at the start of the window, the next page is requested, after
    that entry. *)
Theorem paging_stops_exactly_when
  (fuel : nat) (publicKey : PublicKey) (windowStart : Z) (allSignatures : list string)
  (before : option string) (w : World) (t : Trace)
  (page : list ConfirmedSignatureInfo) :
  getSignaturesForAddress w t publicKey 100 before windowStart = Resolved page ->
  let request := page_request publicKey before windowStart in
  let result :=
    Memo.fetchAllSignatures (S (S fuel)) publicKey windowStart allSignatures before w t in
  (snd result = request :: t <->
   page = [] \/
   exists oldest,
     oldest_of page = Some oldest /\
     nullish (blockTime oldest) 0 * 1000 < windowStart)
  /\
  (snd result = request :: t ->
   fst result = Returned (allSignatures ++ map signature page))
  /\
  (forall oldest,
     oldest_of page = Some oldest ->
     windowStart <= nullish (blockTime oldest) 0 * 1000 ->
     exists later,
       snd result
       = later ++ page_request publicKey (Some (signature oldest)) windowStart
               :: request :: t).
Proof.
  intros Hreply request result.
  assert (Hgo : forall oldest,
             oldest_of page = Some oldest ->
             windowStart <= nullish (blockTime oldest) 0 * 1000 ->
             exists later,
               snd result
               = later ++ page_request publicKey (Some (signature oldest)) windowStart
                       :: request :: t).
  { intros oldest Holdest Hle. subst result.
    rewrite fetchAllSignatures_step, Hreply. cbv zeta.
    destruct page as [|s page]; [discriminate Holdest|].
    rewrite Holdest.
    destruct (Z.ltb_spec (nullish (blockTime oldest) 0 * 1000) windowStart); [lia|].
    apply fetchAllSignatures_trace. }
  assert (Hstop : page = [] \/
                  (exists oldest,
                     oldest_of page = Some oldest /\
                     nullish (blockTime oldest) 0 * 1000 < windowStart) ->
                  result = (Returned (allSignatures ++ map signature page), request :: t)).
  { intros Hcase. subst result.
    rewrite fetchAllSignatures_step, Hreply. cbv zeta.
    destruct Hcase as [-> | (oldest & Holdest & Hlt)].
    - now rewrite app_nil_r.
    - destruct page as [|s page]; [discriminate Holdest|].
      rewrite Holdest.
      destruct (Z.ltb_spec (nullish (blockTime oldest) 0 * 1000) windowStart);
        [reflexivity|lia]. }
  assert (Hiff : snd result = request :: t ->
                 page = [] \/
                 exists oldest,
                   oldest_of page = Some oldest /\
                   nullish (blockTime oldest) 0 * 1000 < windowStart).
  { intros Hone.
    destruct page as [|s page]; [now left|right].
    destruct (oldest_of_nonempty s page) as [oldest Holdest].
    exists oldest. split; [exact Holdest|].
    destruct (Z.lt_ge_cases (nullish (blockTime oldest) 0 * 1000) windowStart)
      as [Hlt|Hge]; [exact Hlt|exfalso].
    destruct (Hgo oldest Holdest Hge) as [later E].
    rewrite Hone in E.
    apply (f_equal (@length _)) in E.
    rewrite length_app in E. simpl in E. lia. }
  split; [split|split].
  - exact Hiff.
  - intros Hcase. now rewrite (Hstop Hcase).
  - intros Hone. now rewrite (Hstop (Hiff Hone)).
  - exact Hgo.
Qed.

(** The history scan hands no draft to [createPostResponse]. *)
Lemma fetchAllSignatures_handed (fuel : nat) :
  forall (publicKey : PublicKey) (windowStart : Z) (allSignatures : list string)
         (before : option string) (w : World) (t : Trace),
    handed (snd (Memo.fetchAllSignatures fuel publicKey windowStart allSignatures before w t))
    = handed t.
Proof.
  induction fuel as [|fuel IH]; intros publicKey windowStart allSignatures before w t;
    [reflexivity|].
  rewrite fetchAllSignatures_step. cbv zeta.
  destruct (getSignaturesForAddress w t publicKey 100 before windowStart) as [page|error];
    [|reflexivity].
  destruct page as [|s page]; [reflexivity|].
  destruct (oldest_of (s :: page)) as [oldest|]; [|reflexivity].
  destruct (nullish (blockTime oldest) 0 * 1000 <? windowStart); [reflexivity|].
  now rewrite IH.
Qed.

Lemma processBatches_handed (fuel : nat) :
  forall (allSignatures : list string) (message : string) (batchSize i : nat)
         (w : World) (t : Trace),
    handed (snd (Memo.processBatches fuel allSignatures message batchSize i w t)) = handed t.
Proof.
  induction fuel as [|fuel IH]; intros allSignatures message batchSize i w t;
    [reflexivity|].
  cbn [Memo.processBatches].
  destruct (i <? length allSignatures)%nat; [|reflexivity].
  unfold bind, connection_getParsedTransactions, await.
  destruct (getParsedTransactions w t (slice allSignatures i (i + batchSize)) 0)
    as [transactions|error]; [|reflexivity].
  destruct (existsb (Memo.logs_include message) transactions); [reflexivity|].
  now rewrite IH.
Qed.

Lemma checkForMessage_handed (fuel : nat) (target : string + PublicKey) (message : string)
  (batchSize : nat) (w : World) (t : Trace) :
  handed (snd (Memo.checkForMessage fuel target message batchSize w t)) = handed t.
Proof.
  unfold Memo.checkForMessage, try_catch, bind, lift, now, throw, ret.
  destruct (PublicKey_from target) as [publicKey|e]; [|reflexivity].
  pose proof (fetchAllSignatures_handed fuel publicKey
                (Date_now w - 24 * 60 * 60 * 1000) [] None w t) as Hfetch.
  destruct (Memo.fetchAllSignatures fuel publicKey
              (Date_now w - 24 * 60 * 60 * 1000) [] None w t) as [[all| |] t1];
    cbn [snd] in Hfetch |- *; try exact Hfetch.
  pose proof (processBatches_handed fuel all message batchSize 0 w t1) as Hbatch.
  destruct (Memo.processBatches fuel all message batchSize 0 w t1) as [[found| |] t2];
    cbn [snd] in Hbatch |- *; congruence.
Qed.

(** X6.  The batch loop ends: with batches that are not empty, as many turns as
    there are signatures left, and one more, are enough fuel. *)
Lemma processBatches_ends (fuel : nat) :
  forall (allSignatures : list string) (message : string) (batchSize i : nat)
         (w : World) (t : Trace),
    (0 < batchSize)%nat ->
    (length allSignatures - i < fuel)%nat ->
    fst (Memo.processBatches fuel allSignatures message batchSize i w t) <> Pending.
Proof.
  induction fuel as [|fuel IH]; intros allSignatures message batchSize i w t Hsize Hfuel;
    [lia|].
  cbn [Memo.processBatches].
  destruct (Nat.ltb_spec i (length allSignatures)); [|discriminate].
  unfold bind, connection_getParsedTransactions, await.
  destruct (getParsedTransactions w t (slice allSignatures i (i + batchSize)) 0)
    as [transactions|error]; [|discriminate].
  destruct (existsb (Memo.logs_include message) transactions); [discriminate|].
  apply IH; lia.
Qed.


(** ** The Memo provider *)

(** Lines 118-128: the payload after a scan that ended. *)
Lemma messageResult_after (scan : Async bool) (w : World) (t t1 : Trace)
  (scanned : Outcome bool) :
  scan w t = (scanned, t1) ->
  scanned <> Pending ->
  Memo.messageResult scan w t = (Returned (payload_after scanned), t1).
Proof.
  intros Hscan Hended.
  unfold Memo.messageResult, try_catch, bind, ret. rewrite Hscan.
  destruct scanned as [[|]| |]; try reflexivity. contradiction.
Qed.

(** [POST] of the Memo provider, path by path. *)
Lemma Memo_POST_with_paths (scan : Async bool) (req : Request) (w : World) :
  run (Memo.POST_with scan req) w =
  match json req with
  | Rejected error => (Returned (error_response (ThrownError error)), [])
  | Resolved body =>
      match PublicKey_new (account body) with
      | None => (Returned invalid_account, [])
      | Some payer =>
          match Connection_new w with
          | Some error => (Returned (error_response (ThrownError error)), [])
          | None =>
              match scan w [] with
              | (Pending, t1) => (Pending, t1)
              | (scanned, t1) =>
                  match getLatestBlockhash w t1 with
                  | Rejected error =>
                      (Returned (error_response (ThrownError error)),
                       Call_getLatestBlockhash :: t1)
                  | Resolved blockhash =>
                      let draft := memo_draft (payload_after scanned) payer blockhash in
                      let t2 :=
                        Call_createPostResponse draft "Post this memo on-chain"
                        :: Call_getLatestBlockhash :: t1 in
                      match createPostResponse w (Call_getLatestBlockhash :: t1) draft
                              "Post this memo on-chain" with
                      | Rejected error =>
                          (Returned (error_response (ThrownError error)), t2)
                      | Resolved payload =>
                          (Returned (Response_json (PostBody payload) ACTIONS_CORS_HEADERS),
                           t2)
                      end
                  end
              end
          end
      end
  end.
Proof.
  unfold run, Memo.POST_with, try_catch at 1, bind at 1, await_json.
  destruct (json req) as [body|error]; [|reflexivity].
  destruct (PublicKey_new (account body)) as [payer|]; [|reflexivity].
  unfold bind at 1, connect.
  destruct (Connection_new w) as [error|]; [reflexivity|].
  unfold bind at 1.
  destruct (scan w []) as [scanned t1] eqn:Hscan.
  destruct scanned as [found| e |].
  - rewrite (messageResult_after scan w [] Hscan)
      by discriminate.
    unfold bind, connection_getLatestBlockhash, await_createPostResponse, await, ret.
    destruct (getLatestBlockhash w t1) as [blockhash|error]; [|reflexivity].
    cbv zeta. unfold memo_draft, Memo.memo_instruction, set_recentBlockhash, set_feePayer,
      Transaction_add, Transaction_new, ComputeBudgetProgram_setComputeUnitPrice.
    cbn [instructions feePayer recentBlockhash app].
    destruct (createPostResponse w (Call_getLatestBlockhash :: t1) _ _); reflexivity.
  - rewrite (messageResult_after scan w [] Hscan)
      by discriminate.
    unfold bind, connection_getLatestBlockhash, await_createPostResponse, await, ret.
    destruct (getLatestBlockhash w t1) as [blockhash|error]; [|reflexivity].
    cbv zeta. unfold memo_draft, Memo.memo_instruction, set_recentBlockhash, set_feePayer,
      Transaction_add, Transaction_new, ComputeBudgetProgram_setComputeUnitPrice.
    cbn [instructions feePayer recentBlockhash app].
    destruct (createPostResponse w (Call_getLatestBlockhash :: t1) _ _); reflexivity.
  - unfold Memo.messageResult, try_catch, bind. rewrite Hscan. reflexivity.
Qed.

(** With the target it is given in [POST], the scan throws before it asks
    the network anything, whenever the library rejects that target. *)
Lemma checkForMessage_rejected_target (fuel : nat) (target message : string)
  (batchSize : nat) (w : World) (t : Trace) :
  PublicKey_new target = None ->
  Memo.checkForMessage fuel (inl target) message batchSize w t
  = (Threw (ThrownError "Error"), t).
Proof.
  intros Hnone.
  unfold Memo.checkForMessage, try_catch, bind, lift, PublicKey_from.
  now rewrite Hnone.
Qed.

(** The target of [POST] is no base58 text, so a platform that takes base58
    text only rejects it. *)
Lemma scan_target_is_rejected :
  takes_base58_only P -> PublicKey_new Memo.scan_target = None.
Proof.
  intros Hbase58.
  destruct (PublicKey_new Memo.scan_target) as [key|] eqn:Hkey; [|reflexivity].
  apply Hbase58 in Hkey. discriminate Hkey.
Qed.

(** C2.  In [POST] of the Memo provider, for a history scan that ended
    ([scanned]: it returned [true], returned [false], or threw): the payload
    chosen is "second message" after [true] and "initial message" after
    [false] or a throw ([payload_after]), and it is a value, not a rethrown
    error; a scan that threw leaves [POST] exactly what it is after a scan
    that returned [false]; and when the rest of the request succeeds, the
    draft handed to [createPostResponse] carries that payload in its memo
    instruction and the response is the 200 one. *)
Theorem memo_payload_follows_scan
  (scan : Async bool) (req : Request) (w : World) (scanned : Outcome bool) (t1 : Trace) :
  scan w [] = (scanned, t1) ->
  scanned <> Pending ->
  Memo.messageResult scan w [] = (Returned (payload_after scanned), t1)
  /\
  (forall e,
     scanned = Threw e ->
     run (Memo.POST_with scan req) w
     = run (Memo.POST_with (fun _ _ => (Returned false, t1)) req) w)
  /\
  (forall body payer blockhash payload,
     json req = Resolved body ->
     PublicKey_new (account body) = Some payer ->
     Connection_new w = None ->
     getLatestBlockhash w t1 = Resolved blockhash ->
     createPostResponse w (Call_getLatestBlockhash :: t1)
       (memo_draft (payload_after scanned) payer blockhash) "Post this memo on-chain"
     = Resolved payload ->
     run (Memo.POST_with scan req) w
     = (Returned (Response_json (PostBody payload) ACTIONS_CORS_HEADERS),
        Call_createPostResponse (memo_draft (payload_after scanned) payer blockhash)
                                "Post this memo on-chain"
        :: Call_getLatestBlockhash :: t1)).
Proof.
  intros Hscan Hended. split; [|split].
  - now apply messageResult_after.
  - intros e ->. rewrite !Memo_POST_with_paths, Hscan. reflexivity.
  - intros body payer blockhash payload Hjson Hkey Hconn Hhash Hpost.
    rewrite Memo_POST_with_paths, Hjson, Hkey, Hconn, Hscan, Hhash.
    cbv zeta. rewrite Hpost.
    destruct scanned as [found|e|]; [reflexivity|reflexivity|contradiction].
Qed.

(** C3.  The target [POST] passes to the scan is the literal
    [YOUR_ACCOUNT_OR_PROGRAM_PUBLIC_KEY].  Whenever the [PublicKey]
    constructor rejects it, then for every request, world and fuel: the scan
    throws without a request to the network; the payload chosen is
    "initial message"; every draft [POST] hands to [createPostResponse] is
    the priority fee followed by the memo "initial message", so that no
    draft carries "second message"; and a request that gets as far as the
    block hash hands over exactly that one draft. *)
Theorem memo_payload_is_always_initial
  (fuel : nat) (req : Request) (w : World) :
  PublicKey_new Memo.scan_target = None ->
  (forall t,
     Memo.checkForMessage fuel (inl Memo.scan_target) "initial message" 100 w t
     = (Threw (ThrownError "Error"), t))
  /\
  (forall t,
     Memo.messageResult
       (Memo.checkForMessage fuel (inl Memo.scan_target) "initial message" 100) w t
     = (Returned "initial message", t))
  /\
  (forall draft,
     In draft (handed (snd (run (Memo.POST fuel req) w))) ->
     exists payer blockhash, draft = memo_draft "initial message" payer blockhash)
  /\
  (forall body payer blockhash,
     json req = Resolved body ->
     PublicKey_new (account body) = Some payer ->
     Connection_new w = None ->
     getLatestBlockhash w [] = Resolved blockhash ->
     handed (snd (run (Memo.POST fuel req) w))
     = [memo_draft "initial message" payer blockhash]).
Proof.
  intros Hrejected.
  assert (Hscan : forall t,
             Memo.checkForMessage fuel (inl Memo.scan_target) "initial message" 100 w t
             = (Threw (ThrownError "Error"), t))
    by (intros t; now apply checkForMessage_rejected_target).
  split; [exact Hscan|split; [|split]].
  - intros t.
    now rewrite (messageResult_after _ w t (Hscan t)) by discriminate.
  - intros draft. unfold Memo.POST.
    rewrite Memo_POST_with_paths, (Hscan []).
    destruct (json req) as [body|error]; [|intros []].
    destruct (PublicKey_new (account body)) as [payer|]; [|intros []].
    destruct (Connection_new w) as [error|]; [intros []|].
    destruct (getLatestBlockhash w []) as [blockhash|error]; [|intros []].
    cbv zeta.
    destruct (createPostResponse w [Call_getLatestBlockhash] _ _);
      (intros [<-|[]]; now exists payer, blockhash).
  - intros body payer blockhash Hjson Hkey Hconn Hhash. unfold Memo.POST.
    rewrite Memo_POST_with_paths, (Hscan []), Hjson, Hkey, Hconn, Hhash.
    cbv zeta.
    destruct (createPostResponse w [Call_getLatestBlockhash] _ _); reflexivity.
Qed.

(** ** The Transfer provider *)

Section TransferProperties.
Variable DEFAULT_SOL_ADDRESS : PublicKey.

(** [POST] of the Transfer provider, path by path. *)
Lemma Transfer_POST_paths (req : Request) (w : World) :
  run (Transfer.POST DEFAULT_SOL_ADDRESS req) w =
  match Transfer.validatedQueryParams DEFAULT_SOL_ADDRESS (url req) with
  | Throw e => (Returned (error_response e), [])
  | Ok (amount, toPubkey) =>
      match json req with
      | Rejected error => (Returned (error_response (ThrownError error)), [])
      | Resolved body =>
          match PublicKey_new (account body) with
          | None => (Returned invalid_account, [])
          | Some payer =>
              match Connection_new w with
              | Some error => (Returned (error_response (ThrownError error)), [])
              | None =>
                  let t1 := [Call_getMinimumBalanceForRentExemption 0] in
                  match getMinimumBalanceForRentExemption w [] 0 with
                  | Rejected error => (Returned (error_response (ThrownError error)), t1)
                  | Resolved minimumBalance =>
                      if (amount * LAMPORTS_PER_SOL <? minimumBalance)%float
                      then (Returned (error_response
                                        (ThrownString (Transfer.rent_error toPubkey))), t1)
                      else
                        match BigInt (amount * LAMPORTS_PER_SOL) with
                        | None =>
                            (Returned (error_response (ThrownError "RangeError")), t1)
                        | Some lamports =>
                            if fits_u64 lamports
                            then
                              match getLatestBlockhash w t1 with
                              | Rejected error =>
                                  (Returned (error_response (ThrownError error)),
                                   Call_getLatestBlockhash :: t1)
                              | Resolved blockhash =>
                                  let draft :=
                                    transfer_draft payer toPubkey lamports blockhash in
                                  let message := transfer_message amount toPubkey in
                                  let t2 :=
                                    Call_createPostResponse draft message
                                    :: Call_getLatestBlockhash :: t1 in
                                  match createPostResponse w (Call_getLatestBlockhash :: t1)
                                          draft message with
                                  | Rejected error =>
                                      (Returned (error_response (ThrownError error)), t2)
                                  | Resolved payload =>
                                      (Returned (Response_json (PostBody payload)
                                                               ACTIONS_CORS_HEADERS), t2)
                                  end
                              end
                            else (Returned (error_response (ThrownError "RangeError")), t1)
                        end
                  end
              end
          end
      end
  end.
Proof.
  unfold run, Transfer.POST, try_catch, bind at 1, lift.
  destruct (Transfer.validatedQueryParams DEFAULT_SOL_ADDRESS (url req))
    as [[amount toPubkey]|e]; [|reflexivity].
  unfold ret at 1, bind at 1, await_json.
  destruct (json req) as [body|error]; [|reflexivity].
  destruct (PublicKey_new (account body)) as [payer|]; [|reflexivity].
  unfold bind at 1, connect.
  destruct (Connection_new w) as [error|]; [reflexivity|].
  unfold bind at 1, connection_getMinimumBalanceForRentExemption, await at 1.
  destruct (getMinimumBalanceForRentExemption w [] 0) as [minimumBalance|error];
    [|reflexivity].
  cbv zeta.
  destruct (amount * LAMPORTS_PER_SOL <? minimumBalance)%float; [reflexivity|].
  unfold bind at 1, SystemProgram_transfer.
  destruct (BigInt (amount * LAMPORTS_PER_SOL)) as [lamports|]; [|reflexivity].
  destruct (fits_u64 lamports); [|reflexivity].
  unfold lift, ret at 1, bind at 1, connection_getLatestBlockhash, await at 1.
  destruct (getLatestBlockhash w [Call_getMinimumBalanceForRentExemption 0])
    as [blockhash|error]; [|reflexivity].
  unfold bind, await_createPostResponse, await, ret, transfer_draft, transfer_message,
    set_recentBlockhash, set_feePayer, Transaction_add, Transaction_new.
  cbn [instructions feePayer recentBlockhash app].
  destruct (createPostResponse w _ _ _); reflexivity.
Qed.

(** The rent rejection is no other response of [POST]. *)
Lemma rent_rejection_not_unknown (toPubkey : PublicKey) (error : string) :
  error_response (ThrownError error)
  <> Response_new (Transfer.rent_error toPubkey) 400 ACTIONS_CORS_HEADERS.
Proof.
  unfold error_response, Response_new, Transfer.rent_error. cbn [append].
  intros Heq. injection Heq as Heq. discriminate Heq.
Qed.

(** C6.  For a request whose query passes validation and whose account is
    well formed, once the node has reported the rent-exempt minimum of an
    empty account: [POST] answers with the 400 rejection, whose text ends
    with the destination address, exactly when [amount * LAMPORTS_PER_SOL]
    is strictly below that minimum, and it then asks the network nothing
    more; otherwise it goes on to build the transfer: when
    [SystemProgram.transfer] accepts the amount, an integral number of
    lamports that fits an unsigned 64-bit integer, the draft handed to
    [createPostResponse] once the block hash has arrived is the single
    transfer of that many lamports, and when it throws, the handler answers
    with what was thrown without asking the network anything more. *)
Theorem rent_exemption_gate
  (req : Request) (w : World) (amount : float) (toPubkey : PublicKey)
  (body : ActionPostRequest) (payer : PublicKey) (minimumBalance : float) :
  Transfer.validatedQueryParams DEFAULT_SOL_ADDRESS (url req) = Ok (amount, toPubkey) ->
  json req = Resolved body ->
  PublicKey_new (account body) = Some payer ->
  Connection_new w = None ->
  getMinimumBalanceForRentExemption w [] 0 = Resolved minimumBalance ->
  let below := (amount * LAMPORTS_PER_SOL <? minimumBalance)%float in
  let rejection :=
    Response_new (Transfer.rent_error toPubkey) 400 ACTIONS_CORS_HEADERS in
  (fst (run (Transfer.POST DEFAULT_SOL_ADDRESS req) w) = Returned rejection
   <-> below = true)
  /\
  includes (Transfer.rent_error toPubkey) (toBase58 toPubkey) = true
  /\
  (below = true ->
   run (Transfer.POST DEFAULT_SOL_ADDRESS req) w
   = (Returned rejection, [Call_getMinimumBalanceForRentExemption 0]))
  /\
  (below = false ->
   forall lamports blockhash,
     BigInt (amount * LAMPORTS_PER_SOL) = Some lamports ->
     fits_u64 lamports = true ->
     getLatestBlockhash w [Call_getMinimumBalanceForRentExemption 0] = Resolved blockhash ->
     handed (snd (run (Transfer.POST DEFAULT_SOL_ADDRESS req) w))
     = [transfer_draft payer toPubkey lamports blockhash])
  /\
  (below = false ->
   forall e,
     SystemProgram_transfer payer toPubkey (amount * LAMPORTS_PER_SOL) = Throw e ->
     run (Transfer.POST DEFAULT_SOL_ADDRESS req) w
     = (Returned (error_response e), [Call_getMinimumBalanceForRentExemption 0])).
Proof.
  intros Hquery Hjson Hkey Hconn Hmin below rejection.
  rewrite Transfer_POST_paths, Hquery, Hjson, Hkey, Hconn, Hmin. cbv zeta.
  fold below.
  split; [|split; [apply includes_suffix|split; [|split]]].
  - destruct below; [split; reflexivity|].
    split; [|discriminate].
    intros Heq. exfalso.
    destruct (BigInt (amount * LAMPORTS_PER_SOL)) as [lamports|];
      [destruct (fits_u64 lamports);
       [destruct (getLatestBlockhash w _) as [blockhash|error];
        [destruct (createPostResponse w _ _ _) as [payload|error]|]|]|];
      cbn [fst] in Heq; apply Returned_inj in Heq;
      try (now apply rent_rejection_not_unknown in Heq).
    apply (f_equal status) in Heq. discriminate Heq.
  - intros ->. reflexivity.
  - intros -> lamports blockhash Hbig Hfits Hhash.
    rewrite Hbig, Hfits, Hhash.
    destruct (createPostResponse w _ _ _); reflexivity.
  - intros -> e. unfold SystemProgram_transfer.
    destruct (BigInt (amount * LAMPORTS_PER_SOL)) as [lamports|];
      [destruct (fits_u64 lamports); [discriminate|]|];
      intros Hthrow; injection Hthrow as <-; reflexivity.
Qed.

(** C7, as amended.  For a request whose body parses and whose [account]
    the [PublicKey] constructor rejects: [POST] of the Memo provider answers
    400 with exactly [Invalid "account" provided], before any call to the
    network; [POST] of the Transfer provider does the same when the query
    passes validation, and when it does not, answers with the error of the
    query validation instead. *)
Theorem malformed_account_is_rejected
  (fuel : nat) (req : Request) (w : World) (posted : ActionPostRequest) :
  json req = Resolved posted ->
  PublicKey_new (account posted) = None ->
  (status invalid_account = 400 /\
   body invalid_account
   = TextBody ("Invalid " ++ dquote ++ "account" ++ dquote ++ " provided"))
  /\
  run (Memo.POST fuel req) w = (Returned invalid_account, [])
  /\
  (forall validated,
     Transfer.validatedQueryParams DEFAULT_SOL_ADDRESS (url req) = Ok validated ->
     run (Transfer.POST DEFAULT_SOL_ADDRESS req) w = (Returned invalid_account, []))
  /\
  (forall e,
     Transfer.validatedQueryParams DEFAULT_SOL_ADDRESS (url req) = Throw e ->
     run (Transfer.POST DEFAULT_SOL_ADDRESS req) w = (Returned (error_response e), [])).
Proof.
  intros Hjson Hkey.
  split; [split; reflexivity|split; [|split]].
  - unfold Memo.POST. now rewrite Memo_POST_with_paths, Hjson, Hkey.
  - intros [amount toPubkey] Hquery.
    now rewrite Transfer_POST_paths, Hquery, Hjson, Hkey.
  - intros e Hquery. now rewrite Transfer_POST_paths, Hquery.
Qed.

(** The query validator on a query without [to]: what is done with
    [amount]. *)
Lemma validatedQueryParams_without_to (requestUrl : URL) :
  searchParams_get (searchParams requestUrl) "to" = None ->
  Transfer.validatedQueryParams DEFAULT_SOL_ADDRESS requestUrl =
  let amount :=
    match searchParams_get (searchParams requestUrl) "amount" with
    | Some text => if truthy (Some text) then parseFloat text else Transfer.DEFAULT_SOL_AMOUNT
    | None => Transfer.DEFAULT_SOL_AMOUNT
    end in
  if (amount <=? 0)%float
  then Throw (ThrownString "Invalid input query parameter: amount")
  else Ok (amount, DEFAULT_SOL_ADDRESS).
Proof.
  intros Hto. unfold Transfer.validatedQueryParams. rewrite Hto.
  cbv zeta. cbn [Transfer.try_ Transfer.and_then].
  destruct (_ <=? 0)%float; reflexivity.
Qed.

(** X12.  The part of C5 the code keeps: an [amount] that parses to a number at or
    below zero fails the validation, naming [amount]; [GET] and [POST] then
    answer 400 with that text. *)
Lemma nonpositive_amount_is_rejected (req : Request) (w : World) (text : string) :
  searchParams_get (searchParams (url req)) "to" = None ->
  searchParams_get (searchParams (url req)) "amount" = Some text ->
  truthy (Some text) = true ->
  (parseFloat text <=? 0)%float = true ->
  let refusal :=
    Response_new "Invalid input query parameter: amount" 400 ACTIONS_CORS_HEADERS in
  Transfer.validatedQueryParams DEFAULT_SOL_ADDRESS (url req)
  = Throw (ThrownString "Invalid input query parameter: amount")
  /\ Transfer.GET DEFAULT_SOL_ADDRESS req = refusal
  /\ run (Transfer.POST DEFAULT_SOL_ADDRESS req) w = (Returned refusal, []).
Proof.
  intros Hto Hamount Htruthy Hle refusal.
  assert (Hv : Transfer.validatedQueryParams DEFAULT_SOL_ADDRESS (url req)
               = Throw (ThrownString "Invalid input query parameter: amount")).
  { rewrite validatedQueryParams_without_to by exact Hto.
    cbv zeta. now rewrite Hamount, Htruthy, Hle. }
  split; [exact Hv|split].
  - unfold Transfer.GET. cbv zeta. now rewrite Hv.
  - now rewrite Transfer_POST_paths, Hv.
Qed.

(** An [amount] that [parseFloat] does not parse is [NaN], which is not at
    or below zero: it passes the validation, and [GET] answers 200. *)
Lemma unparsable_amount_is_accepted (req : Request) (text : string) :
  searchParams_get (searchParams (url req)) "to" = None ->
  searchParams_get (searchParams (url req)) "amount" = Some text ->
  truthy (Some text) = true ->
  (parseFloat text <=? 0)%float = false ->
  Transfer.validatedQueryParams DEFAULT_SOL_ADDRESS (url req)
  = Ok (parseFloat text, DEFAULT_SOL_ADDRESS)
  /\ status (Transfer.GET DEFAULT_SOL_ADDRESS req) = 200.
Proof.
  intros Hto Hamount Htruthy Hle.
  assert (Hv : Transfer.validatedQueryParams DEFAULT_SOL_ADDRESS (url req)
               = Ok (parseFloat text, DEFAULT_SOL_ADDRESS)).
  { rewrite validatedQueryParams_without_to by exact Hto.
    cbv zeta. now rewrite Hamount, Htruthy, Hle. }
  split; [exact Hv|].
  unfold Transfer.GET. cbv zeta. now rewrite Hv.
Qed.


(** C9.  Every response of every handler of either provider carries
    [ACTIONS_CORS_HEADERS]: those of [GET] and [OPTIONS], and whatever [POST]
    answers, be it the 200 response, a validation failure, the rent
    rejection or an unknown error.  No handler ends by throwing; [POST] of
    the Transfer provider always answers, and [POST] of the Memo provider
    answers unless its history scan is still paging when the fuel is out. *)
Theorem every_response_carries_cors (fuel : nat) (req : Request) (w : World) :
  headers (Memo.GET req) = ACTIONS_CORS_HEADERS
  /\ headers (Memo.OPTIONS req) = ACTIONS_CORS_HEADERS
  /\ with_cors (fst (run (Memo.POST fuel req) w))
  /\ (fst (run (Memo.POST fuel req) w) = Pending ->
      fst (Memo.checkForMessage fuel (inl Memo.scan_target) "initial message" 100 w [])
      = Pending)
  /\ headers (Transfer.GET DEFAULT_SOL_ADDRESS req) = ACTIONS_CORS_HEADERS
  /\ headers (Transfer.OPTIONS DEFAULT_SOL_ADDRESS req) = ACTIONS_CORS_HEADERS
  /\ (exists r,
        fst (run (Transfer.POST DEFAULT_SOL_ADDRESS req) w) = Returned r
        /\ headers r = ACTIONS_CORS_HEADERS).
Proof.
  assert (Hget : headers (Transfer.GET DEFAULT_SOL_ADDRESS req) = ACTIONS_CORS_HEADERS)
    by (unfold Transfer.GET; cbv zeta; repeat branch; reflexivity).
  repeat split; try exact Hget.
  - unfold Memo.POST. rewrite Memo_POST_with_paths.
    repeat branch; first [reflexivity | exact I].
  - unfold Memo.POST. rewrite Memo_POST_with_paths.
    repeat branch; first [discriminate | reflexivity].
  - rewrite Transfer_POST_paths.
    repeat branch; eexists; split; reflexivity.
Qed.

(** C10.  [GET] of either provider is a function of the origin and the
    query of the request URL: two requests with the same query and the same
    origin get the same response, whatever else differs between them (path,
    fragment, body), and no clock or network enters.  Two requests with the
    same query get responses that agree once the icon and the hrefs of the
    actions are left out; those are the request's origin followed by a fixed
    path (and, for the Transfer provider, the destination and the amount). *)
Theorem GET_depends_on_origin_and_query (r1 r2 : Request) :
  searchParams (url r1) = searchParams (url r2) ->
  (origin (url r1) = origin (url r2) ->
   Memo.GET r1 = Memo.GET r2
   /\ Transfer.GET DEFAULT_SOL_ADDRESS r1 = Transfer.GET DEFAULT_SOL_ADDRESS r2)
  /\
  response_without_origin (Memo.GET r1) = response_without_origin (Memo.GET r2)
  /\
  response_without_origin (Transfer.GET DEFAULT_SOL_ADDRESS r1)
  = response_without_origin (Transfer.GET DEFAULT_SOL_ADDRESS r2)
  /\
  (exists metadata,
     body (Memo.GET r1) = GetBody metadata
     /\ icon metadata = (origin (url r1) ++ "/bun_blink.webp")%string)
  /\
  (forall metadata,
     body (Transfer.GET DEFAULT_SOL_ADDRESS r1) = GetBody metadata ->
     exists toPubkey,
       let base :=
         (origin (url r1) ++ "/api/actions/transfer-sol?to=" ++ toBase58 toPubkey)%string in
       icon metadata = (origin (url r1) ++ "/bun_blink.webp")%string
       /\ option_map (map href) (links metadata)
          = Some [ (base ++ "&amount=1")%string;
                   (base ++ "&amount=5")%string;
                   (base ++ "&amount=10")%string;
                   (base ++ "&amount={amount}")%string ]).
Proof.
  intros Hquery.
  assert (Hv : Transfer.validatedQueryParams DEFAULT_SOL_ADDRESS (url r1)
               = Transfer.validatedQueryParams DEFAULT_SOL_ADDRESS (url r2))
    by (unfold Transfer.validatedQueryParams; now rewrite Hquery).
  split; [|split; [|split; [|split]]].
  - intros Horigin. unfold Memo.GET, Transfer.GET. cbv zeta.
    now rewrite Hv, Horigin.
  - reflexivity.
  - unfold Transfer.GET. cbv zeta. rewrite Hv.
    destruct (Transfer.validatedQueryParams DEFAULT_SOL_ADDRESS (url r2))
      as [[amount toPubkey]|e]; reflexivity.
  - eexists. split; reflexivity.
  - intros metadata. unfold Transfer.GET. cbv zeta.
    destruct (Transfer.validatedQueryParams DEFAULT_SOL_ADDRESS (url r1))
      as [[amount toPubkey]|e].
    + cbn [body Response_json]. intros Heq. injection Heq as <-.
      exists toPubkey. cbv zeta. split; [reflexivity|].
      reflexivity.
    + destruct e; discriminate.
Qed.

End TransferProperties.

End Properties.

(** ** The reference platform *)

Lemma index_of_occurs (c : ascii) (s : string) :
  forall (i d : Z), Reference.index_of c s i = Some d -> occurs c s = true.
Proof.
  induction s as [|c' s IH]; intros i d; simpl; [discriminate|].
  destruct (Ascii.eqb c c'); [reflexivity|].
  intros Hfound. simpl. now apply (IH (i + 1) d).
Qed.

Lemma base58_value_text (s : string) :
  forall (acc n : Z), Reference.base58_value s acc = Some n -> base58_text s = true.
Proof.
  induction s as [|c s IH]; intros acc n; cbn [Reference.base58_value base58_text];
    [reflexivity|].
  unfold Reference.base58_digit.
  destruct (Reference.index_of c Reference.ALPHABET 0) as [d|] eqn:Hdigit; [|discriminate].
  intros Hvalue.
  rewrite (index_of_occurs c Reference.ALPHABET 0 Hdigit : occurs c BASE58 = true).
  now apply (IH (acc * 58 + d) n).
Qed.

(** The reference [PublicKey] takes base58 text only. *)
Lemma reference_takes_base58_only : takes_base58_only Reference.platform.
Proof.
  intros s key. cbn [PublicKey_new Reference.platform]. unfold Reference.bs58_PublicKey.
  destruct (Reference.base58_value s 0) as [n|] eqn:Hvalue; [|discriminate].
  intros _. exact (base58_value_text s 0 Hvalue).
Qed.

(** The scan target of the Memo provider is not a key: its [_] is no
    base58 digit. *)
Lemma scan_target_is_not_base58 :
  Reference.base58_digit "_" = None
  /\ Reference.base58_value Memo.scan_target 0 = None
  /\ PublicKey_new (Platform := Reference.platform) Memo.scan_target = None.
Proof. repeat split. Qed.

(** The address of [const.ts] is a key, and prints as it was written. *)
Lemma default_address_is_a_key :
  PublicKey_new (Platform := Reference.platform) Transfer.DEFAULT_SOL_ADDRESS_literal
  = Some Sample.key
  /\ toBase58 (Platform := Reference.platform) Sample.key
     = Transfer.DEFAULT_SOL_ADDRESS_literal.
Proof. split; vm_compute; reflexivity. Qed.

(** [parseFloat] trims the white space before the number, the no-break
    space U+00A0 and the byte order mark U+FEFF as well as the ASCII one. *)
Lemma parseFloat_trims_white_space :
  let nbsp := String (ascii_of_nat 194) (String (ascii_of_nat 160) EmptyString) in
  let bom :=
    String (ascii_of_nat 239)
           (String (ascii_of_nat 187) (String (ascii_of_nat 191) EmptyString)) in
  Reference.js_parseFloat (" " ++ nbsp ++ bom ++ "2.5 SOL")%string = 2.5%float.
Proof. reflexivity. Qed.

(** ** The claims at concrete inputs *)

(** C1, as stated, fails: the node always has a further page, the page it
    answers ends with an entry without [blockTime], and the paging loop
    stops after that one page, having made a single request. *)
Lemma missing_blockTime_stops_paging :
  oldest_of (Sample.untimed_pages [] None) = Some Sample.untimed_entry
  /\ blockTime Sample.untimed_entry = None
  /\ Sample.untimed_pages [page_request Sample.key None Sample.window]
                          (Some "3Zk1") <> []
  /\ run (Memo.fetchAllSignatures 5 Sample.key Sample.window [] None) Sample.untimed_node
     = (Returned ["3Zk1"], [page_request Sample.key None Sample.window]).
Proof.
  split; [reflexivity|split; [reflexivity|split; [discriminate|]]].
  reflexivity.
Qed.

(** C1, as amended, on that node: the page is accumulated and the loop
    stops. *)
Lemma missing_blockTime_counts_as_epoch_witness :
  Memo.fetchAllSignatures 5 Sample.key Sample.window [] None Sample.untimed_node []
  = (Returned ([] ++ map signature (Sample.untimed_pages [] None)),
     [page_request Sample.key None Sample.window]).
Proof.
  refine (proj1 (@missing_blockTime_counts_as_epoch Sample.P 4 Sample.key Sample.window
                   [] None Sample.untimed_node [] (Sample.untimed_pages [] None)
                   Sample.untimed_entry eq_refl eq_refl eq_refl) _).
  reflexivity.
Defined.

(** C4, as stated, fails: the first page ends with an entry timed exactly
    at the start of the window, and the paging loop goes on to request the
    page after it. *)
Lemma boundary_page_does_not_stop_paging :
  oldest_of (Sample.boundary_pages [] None) = Some Sample.boundary_entry
  /\ nullish (blockTime Sample.boundary_entry) 0 * 1000 = Sample.boundary_window
  /\ run (Memo.fetchAllSignatures 5 Sample.key Sample.boundary_window [] None)
         Sample.boundary_node
     = (Returned ["5VfY"; "4Qbn"; "2Lmw"],
        [ page_request Sample.key (Some "4Qbn") Sample.boundary_window;
          page_request Sample.key None Sample.boundary_window ]).
Proof.
  split; [reflexivity|split; [reflexivity|]].
  reflexivity.
Qed.

(** C4, as amended, on that node: the request after the boundary entry is
    made. *)
Lemma paging_stops_exactly_when_witness :
  exists later,
    snd (Memo.fetchAllSignatures 5 Sample.key Sample.boundary_window [] None
           Sample.boundary_node [])
    = later ++ [ page_request Sample.key (Some "4Qbn") Sample.boundary_window;
                 page_request Sample.key None Sample.boundary_window ].
Proof.
  refine (proj2 (proj2 (@paging_stops_exactly_when Sample.P 3 Sample.key
                          Sample.boundary_window [] None Sample.boundary_node []
                          (Sample.boundary_pages [] None) eq_refl))
                Sample.boundary_entry eq_refl _).
  vm_compute. discriminate.
Defined.

(** The true branch of C2 is taken by a scan aimed at a key: the marker was
    logged within the window, and the memo of the draft is
    "second message". *)
Lemma memo_payload_follows_scan_witness :
  run (Memo.POST_with Sample.scan_of_key
         (Sample.request [] Transfer.DEFAULT_SOL_ADDRESS_literal))
      Sample.marked_node
  = (Returned (Response_json
                 (PostBody {| post_transaction := "AQAAAAAAAAAA";
                              post_message := "Post this memo on-chain" |})
                 (ACTIONS_CORS_HEADERS (Platform := Sample.P))),
     Call_createPostResponse
       (memo_draft (payload_after (Returned true)) Sample.key Sample.blockhash)
       "Post this memo on-chain"
     :: Call_getLatestBlockhash :: Sample.scan_trace).
Proof.
  refine (proj2 (proj2 (@memo_payload_follows_scan Sample.P Sample.scan_of_key
                          (Sample.request [] Transfer.DEFAULT_SOL_ADDRESS_literal)
                          Sample.marked_node (Returned true) Sample.scan_trace _ _))
                {| account := Transfer.DEFAULT_SOL_ADDRESS_literal |} Sample.key
                Sample.blockhash _ eq_refl _ eq_refl eq_refl eq_refl).
  - reflexivity.
  - discriminate.
  - reflexivity.
Defined.

(** C3 on the reference platform: the marker is on chain within the window,
    and the memo of the draft is "initial message" all the same. *)
Lemma memo_payload_is_always_initial_witness :
  handed (snd (run (Memo.POST 5 (Sample.request [] Transfer.DEFAULT_SOL_ADDRESS_literal))
                   Sample.marked_node))
  = [memo_draft "initial message" Sample.key Sample.blockhash].
Proof.
  refine (proj2 (proj2 (proj2 (@memo_payload_is_always_initial Sample.P 5
                                 (Sample.request [] Transfer.DEFAULT_SOL_ADDRESS_literal)
                                 Sample.marked_node _)))
                {| account := Transfer.DEFAULT_SOL_ADDRESS_literal |} Sample.key
                Sample.blockhash eq_refl _ eq_refl eq_refl).
  - reflexivity.
  - reflexivity.
Defined.

(** C5 at [?amount=abc].  [parseFloat] reads [NaN], [NaN <= 0] is false,
    and the query validator returns [NaN] as the amount instead of failing:
    [GET] answers 200 with the metadata, and [POST] gets as far as
    [SystemProgram.transfer], whose [RangeError] it reports as an unknown
    error that does not name [amount]. *)
Lemma unparsable_amount_passes_validation :
  let req := Sample.request [("amount", "abc")] Transfer.DEFAULT_SOL_ADDRESS_literal in
  Transfer.validatedQueryParams Sample.key (url req) = Ok (nan, Sample.key)
  /\ Transfer.GET Sample.key req
     = Response_json (GetBody (Transfer.payload_for Sample.key "https://actions.example"))
                     (ACTIONS_CORS_HEADERS (Platform := Sample.P))
  /\ run (Transfer.POST Sample.key req) Sample.marked_node
     = (Returned (Response_new "An unknown error occurred" 400
                               (ACTIONS_CORS_HEADERS (Platform := Sample.P))),
        [Call_getMinimumBalanceForRentExemption 0]).
Proof. cbv zeta. repeat split. Qed.

(** The part of C5 that holds, at [?amount=0] and [?amount=-2.5]. *)
Lemma nonpositive_amount_is_rejected_witness :
  Transfer.GET Sample.key (Sample.request [("amount", "0")] "")
  = Response_new "Invalid input query parameter: amount" 400
                 (ACTIONS_CORS_HEADERS (Platform := Sample.P))
  /\ run (Transfer.POST Sample.key (Sample.request [("amount", "-2.5")] "")) Sample.marked_node
     = (Returned (Response_new "Invalid input query parameter: amount" 400
                               (ACTIONS_CORS_HEADERS (Platform := Sample.P))), []).
Proof.
  split.
  - exact (proj1 (proj2 (@nonpositive_amount_is_rejected Sample.P Sample.key
                           (Sample.request [("amount", "0")] "") Sample.marked_node "0"
                           eq_refl eq_refl eq_refl eq_refl))).
  - exact (proj2 (proj2 (@nonpositive_amount_is_rejected Sample.P Sample.key
                           (Sample.request [("amount", "-2.5")] "") Sample.marked_node "-2.5"
                           eq_refl eq_refl eq_refl eq_refl))).
Defined.

(** C6 at [?amount=0.0001]: 100000 lamports are below the minimum of 890880,
    and the transfer is rejected. *)
Lemma rent_exemption_gate_witness :
  run (Transfer.POST Sample.key
         (Sample.request [("amount", "0.0001")] Transfer.DEFAULT_SOL_ADDRESS_literal))
      Sample.marked_node
  = (Returned (Response_new
                 "account may not be rent exempt: AEzZqXyPxWJrjrauScDWMyewnWhv6XwmwqGdXD5vDVd4"
                 400 (ACTIONS_CORS_HEADERS (Platform := Sample.P))),
     [Call_getMinimumBalanceForRentExemption 0]).
Proof.
  exact (proj1 (proj2 (proj2
           (@rent_exemption_gate Sample.P Sample.key
              (Sample.request [("amount", "0.0001")] Transfer.DEFAULT_SOL_ADDRESS_literal)
              Sample.marked_node (parseFloat (Platform := Sample.P) "0.0001") Sample.key
              {| account := Transfer.DEFAULT_SOL_ADDRESS_literal |} Sample.key
              890880%float eq_refl eq_refl eq_refl eq_refl eq_refl))) eq_refl).
Defined.

(** C6 at [?amount=1]: a billion lamports are not below the minimum, and the
    draft of the transfer is handed over; the response carries the message
    of the specification. *)
Lemma transfer_of_one_sol :
  let req := Sample.request [("amount", "1")] Transfer.DEFAULT_SOL_ADDRESS_literal in
  handed (snd (run (Transfer.POST Sample.key req) Sample.marked_node))
  = [transfer_draft Sample.key Sample.key 1000000000 Sample.blockhash]
  /\ fst (run (Transfer.POST Sample.key req) Sample.marked_node)
     = Returned (Response_json
                   (PostBody
                      {| post_transaction := "AQAAAAAAAAAA";
                         post_message :=
                           "Send 1 SOL to AEzZqXyPxWJrjrauScDWMyewnWhv6XwmwqGdXD5vDVd4" |})
                   (ACTIONS_CORS_HEADERS (Platform := Sample.P))).
Proof. cbv zeta. split; reflexivity. Qed.

(** C6 at [?amount=1e21]: the amount is not below the minimum and is a whole
    number of lamports, but one that no [u64] holds; [SystemProgram.transfer]
    throws, and the handler answers 400 with the unknown error, having asked
    for the minimum only. *)
Lemma transfer_beyond_u64_is_refused :
  let req := Sample.request [("amount", "1e21")] Transfer.DEFAULT_SOL_ADDRESS_literal in
  BigInt (Platform := Sample.P)
         (parseFloat (Platform := Sample.P) "1e21" * LAMPORTS_PER_SOL)
  = Some 1000000000000000019884624838656
  /\ fits_u64 1000000000000000019884624838656 = false
  /\ run (Transfer.POST Sample.key req) Sample.marked_node
     = (Returned (unknown_error (P := Sample.P)),
        [Call_getMinimumBalanceForRentExemption 0]).
Proof. cbv zeta. repeat split; reflexivity. Qed.

(** C7, as stated, fails for the Transfer provider: the account of the body
    is malformed, the query has [amount=0], and the 400 response names the
    query parameter, not the account. *)
Lemma malformed_account_behind_bad_query :
  PublicKey_new (Platform := Sample.P) "not-an-account" = None
  /\ run (Transfer.POST Sample.key (Sample.request [("amount", "0")] "not-an-account"))
         Sample.marked_node
     = (Returned (Response_new "Invalid input query parameter: amount" 400
                               (ACTIONS_CORS_HEADERS (Platform := Sample.P))), [])
  /\ Response_new "Invalid input query parameter: amount" 400
                  (ACTIONS_CORS_HEADERS (Platform := Sample.P))
     <> invalid_account (P := Sample.P).
Proof.
  split; [reflexivity|split; [reflexivity|]].
  intros Heq. apply (f_equal body) in Heq. discriminate Heq.
Qed.

(** C7, as amended, at a query that passes validation: both providers
    answer that the account is invalid. *)
Lemma malformed_account_is_rejected_witness :
  run (Memo.POST 5 (Sample.request [("amount", "1")] "not-an-account")) Sample.marked_node
  = (Returned (invalid_account (P := Sample.P)), [])
  /\ run (Transfer.POST Sample.key (Sample.request [("amount", "1")] "not-an-account"))
         Sample.marked_node
     = (Returned (invalid_account (P := Sample.P)), []).
Proof.
  pose (H := @malformed_account_is_rejected Sample.P Sample.key 5
               (Sample.request [("amount", "1")] "not-an-account") Sample.marked_node
               {| account := "not-an-account" |} eq_refl eq_refl).
  split.
  - exact (proj1 (proj2 H)).
  - exact (proj1 (proj2 (proj2 H)) _ eq_refl).
Defined.

(** C8 is not vacuous: each provider hands over a draft on a well-formed
    request. *)
Lemma drafts_are_handed_over :
  handed (snd (run (Memo.POST 5 (Sample.request [] Transfer.DEFAULT_SOL_ADDRESS_literal))
                   Sample.unmarked_node))
  = [memo_draft "initial message" Sample.key Sample.blockhash]
  /\ handed (snd (run (Transfer.POST Sample.key
                         (Sample.request [] Transfer.DEFAULT_SOL_ADDRESS_literal))
                      Sample.unmarked_node))
     = [transfer_draft Sample.key Sample.key 100000000 Sample.blockhash].
Proof. split; reflexivity. Qed.

(** C10 on two requests that share the origin and the query, and differ in
    the path, the fragment and the body. *)
Lemma GET_depends_on_origin_and_query_witness :
  Memo.GET (P := Sample.P) (Sample.request [("amount", "5")] "not-an-account")
  = Memo.GET (P := Sample.P) (Sample.other_request [("amount", "5")])
  /\ Transfer.GET Sample.key (Sample.request [("amount", "5")] "not-an-account")
     = Transfer.GET Sample.key (Sample.other_request [("amount", "5")]).
Proof.
  exact (proj1 (@GET_depends_on_origin_and_query Sample.P Sample.key
                  (Sample.request [("amount", "5")] "not-an-account")
                  (Sample.other_request [("amount", "5")]) eq_refl) eq_refl).
Defined.

(* ================================================================== *)
(** * Part III. Further properties of the handlers *)
(* ================================================================== *)

Section Scan.
Context {P : Platform}.

Lemma Forall_page_requests_read (publicKey : PublicKey) (until : Z) (w : World)
  (message : string) (added t : Trace) :
  Forall (is_page_request publicKey until) added ->
  batches_fetched (added ++ t) = batches_fetched t
  /\ hit w message (added ++ t) = hit w message t.
Proof.
  induction 1 as [|c added [before ->] _ [IHb IHh]]; [now split|].
  split; [exact IHb|exact IHh].
Qed.

Lemma Forall_batch_fetches_read (batchSize : nat) (w : World) (added t : Trace) :
  Forall (is_batch_fetch batchSize) added ->
  signatures_listed w (added ++ t) = signatures_listed w t.
Proof.
  induction 1 as [|c added (signatures & -> & _) _ IH]; [reflexivity|exact IH].
Qed.

(** What a run of the paging loop leaves behind: page requests for the one
    key and window and nothing else; on return, the signatures it was given
    followed by those the node listed, in the order of the pages; on a
    throw, the rejection of its latest request. *)
Lemma fetchAllSignatures_run (fuel : nat) :
  forall (publicKey : PublicKey) (windowStart : Z) (allSignatures : list string)
         (before : option string) (w : World) (t t' : Trace) (o : Outcome (list string)),
    Memo.fetchAllSignatures fuel publicKey windowStart allSignatures before w t = (o, t') ->
    exists added,
      t' = added ++ t
      /\ Forall (is_page_request publicKey windowStart) added
      /\ (forall signatures,
            o = Returned signatures ->
            rejection w t' = None
            /\ exists more,
                 signatures = allSignatures ++ more
                 /\ signatures_listed w t' = signatures_listed w t ++ more)
      /\ (forall e,
            o = Threw e ->
            exists error, e = ThrownError error /\ rejection w t' = Some error).
Proof.
  induction fuel as [|fuel IH];
    intros publicKey windowStart allSignatures before w t t' o Hrun.
  - injection Hrun as <- <-. exists []. repeat split; try constructor; discriminate.
  - rewrite fetchAllSignatures_step in Hrun. cbv zeta in Hrun.
    set (request := page_request publicKey before windowStart) in *.
    assert (Hrequest : is_page_request publicKey windowStart request)
      by (now exists before).
    destruct (getSignaturesForAddress w t publicKey 100 before windowStart)
      as [page|error] eqn:Hreply.
    + destruct page as [|s page].
      * injection Hrun as <- <-. exists [request].
        split; [reflexivity|split; [now constructor|split]]; [|discriminate].
        intros signatures [= <-]. cbn. rewrite Hreply.
        split; [reflexivity|]. exists []. now rewrite !app_nil_r.
      * destruct (oldest_of_nonempty s page) as [oldest Holdest].
        rewrite Holdest in Hrun.
        destruct (nullish (blockTime oldest) 0 * 1000 <? windowStart).
        -- injection Hrun as <- <-. exists [request].
           split; [reflexivity|split; [now constructor|split]]; [|discriminate].
           intros signatures [= <-]. cbn. rewrite Hreply.
           split; [reflexivity|]. now exists (map signature (s :: page)).
        -- apply IH in Hrun.
           destruct Hrun as (added & -> & Hadded & Hreturned & Hthrew).
           exists (added ++ [request]).
           split; [now rewrite <- app_assoc|].
           split; [apply Forall_app; split; [exact Hadded|now constructor]|].
           split; [|exact Hthrew].
           intros signatures Ho.
           destruct (Hreturned signatures Ho) as (Hnone & more & -> & Hlisted).
           split; [exact Hnone|].
           exists (map signature (s :: page) ++ more).
           split; [now rewrite <- app_assoc|].
           rewrite Hlisted. cbn [signatures_listed]. unfold request, page_request.
           cbn [signatures_listed]. rewrite Hreply. now rewrite <- app_assoc.
    + injection Hrun as <- <-. exists [request].
      split; [reflexivity|split; [now constructor|split]]; [discriminate|].
      intros e [= <-]. exists error. cbn. now rewrite Hreply.
Qed.

Lemma slice_length {A : Type} (l : list A) (i batchSize : nat) :
  (length (slice l i (i + batchSize)) <= batchSize)%nat.
Proof.
  unfold slice. replace (i + batchSize - i)%nat with batchSize by lia.
  apply firstn_le_length.
Qed.

Lemma slice_skipn {A : Type} (l : list A) (i batchSize : nat) :
  skipn i l = slice l i (i + batchSize) ++ skipn (i + batchSize) l.
Proof.
  unfold slice. replace (i + batchSize - i)%nat with batchSize by lia.
  rewrite Nat.add_comm, <- skipn_skipn. symmetry. apply firstn_skipn.
Qed.

(** What a run of the batch loop leaves behind: fetches of at most
    [batchSize] transactions and nothing else; on return, whether one of
    them was a hit, the hit being the latest call, and the batches being the
    signatures from [i] on, in order and up to the hit; on a throw, the
    rejection of its latest fetch. *)
Lemma processBatches_run (fuel : nat) :
  forall (allSignatures : list string) (message : string) (batchSize i : nat)
         (w : World) (t t' : Trace) (o : Outcome bool),
    Memo.processBatches fuel allSignatures message batchSize i w t = (o, t') ->
    exists added,
      t' = added ++ t
      /\ Forall (is_batch_fetch batchSize) added
      /\ (forall found,
            o = Returned found ->
            (rejection w t = None -> rejection w t' = None)
            /\ hit w message t' = found || hit w message t
            /\ (found = true ->
                exists signatures rest transactions,
                  t' = Call_getParsedTransactions signatures 0 :: rest
                  /\ getParsedTransactions w rest signatures 0 = Resolved transactions
                  /\ existsb (Memo.logs_include message) transactions = true)
            /\ exists got rest,
                 skipn i allSignatures = got ++ rest
                 /\ concat (batches_fetched t') = concat (batches_fetched t) ++ got
                 /\ (found = false -> rest = []))
      /\ (forall e,
            o = Threw e ->
            exists error, e = ThrownError error /\ rejection w t' = Some error).
Proof.
  induction fuel as [|fuel IH];
    intros allSignatures message batchSize i w t t' o Hrun.
  - injection Hrun as <- <-. exists []. repeat split; try constructor; discriminate.
  - cbn [Memo.processBatches] in Hrun.
    destruct (Nat.ltb_spec i (length allSignatures)) as [Hlt|Hge].
    + unfold bind at 1, connection_getParsedTransactions, await in Hrun.
      set (batch := slice allSignatures i (i + batchSize)) in *.
      set (fetch := Call_getParsedTransactions batch 0) in *.
      assert (Hfetch : is_batch_fetch batchSize fetch)
        by (exists batch; split; [reflexivity|apply slice_length]).
      destruct (getParsedTransactions w t batch 0) as [transactions|error] eqn:Hreply.
      * destruct (existsb (Memo.logs_include message) transactions) eqn:Hfound.
        -- injection Hrun as <- <-. exists [fetch].
           split; [reflexivity|split; [now constructor|split]]; [|discriminate].
           intros found [= <-].
           split; [intros _; cbn; now rewrite Hreply|].
           split; [cbn; now rewrite Hreply, Hfound|].
           split; [intros _; now exists batch, t, transactions|].
           exists batch, (skipn (i + batchSize) allSignatures).
           split; [apply slice_skipn|].
           split; [|discriminate].
           cbn. rewrite concat_app. cbn. now rewrite app_nil_r.
        -- apply IH in Hrun.
           destruct Hrun as (added & -> & Hadded & Hreturned & Hthrew).
           exists (added ++ [fetch]).
           split; [now rewrite <- app_assoc|].
           split; [apply Forall_app; split; [exact Hadded|now constructor]|].
           split; [|exact Hthrew].
           intros found Ho.
           destruct (Hreturned found Ho)
             as (Hnone & Hhit & Hlatest & got & rest & Hskip & Hbatches & Hrest).
           split; [intros _; apply Hnone; cbn; now rewrite Hreply|].
           split; [rewrite Hhit; cbn; now rewrite Hreply, Hfound|].
           split; [exact Hlatest|].
           exists (batch ++ got), rest.
           split; [rewrite <- app_assoc, <- Hskip; apply slice_skipn|].
           split; [|exact Hrest].
           rewrite Hbatches. cbn. rewrite concat_app. cbn.
           now rewrite app_nil_r, <- app_assoc.
      * injection Hrun as <- <-. exists [fetch].
        split; [reflexivity|split; [now constructor|split]]; [discriminate|].
        intros e [= <-]. exists error. cbn. now rewrite Hreply.
    + injection Hrun as <- <-. exists [].
      split; [reflexivity|split; [constructor|split]]; [|discriminate].
      intros found [= <-].
      split; [auto|split; [reflexivity|split; [discriminate|]]].
      exists [], []. rewrite skipn_all2 by lia.
      split; [reflexivity|split; [now rewrite app_nil_r|reflexivity]].
Qed.

(** [checkForMessage] on a target that is a key: the paging loop, then the
    batch loop; the [catch] block rethrows what it caught. *)
Lemma checkForMessage_loops (fuel : nat) (target : string + PublicKey) (key : PublicKey)
  (message : string) (batchSize : nat) (w : World) (t : Trace) :
  PublicKey_from target = Ok key ->
  Memo.checkForMessage fuel target message batchSize w t =
  match Memo.fetchAllSignatures fuel key (Date_now w - 24 * 60 * 60 * 1000) [] None w t with
  | (Returned allSignatures, t1) =>
      Memo.processBatches fuel allSignatures message batchSize 0 w t1
  | (Threw e, t1) => (Threw e, t1)
  | (Pending, t1) => (Pending, t1)
  end.
Proof.
  intros Hkey.
  unfold Memo.checkForMessage, try_catch, bind at 1, lift. rewrite Hkey.
  unfold ret at 1, bind at 1, now, bind at 1.
  destruct (Memo.fetchAllSignatures fuel key _ [] None w t) as [[allSignatures|e|] t1];
    try reflexivity.
  destruct (Memo.processBatches fuel allSignatures message batchSize 0 w t1)
    as [[found|e|] t2]; reflexivity.
Qed.

(** X1.  The calls of the history scan.  All it asks the network is, first, pages
    of the signatures of the one key, each of at most 100 signatures and back
    to 24 hours before the clock, and then, once the paging is over,
    transactions in batches of at most [batchSize] signatures; a target that
    is no key costs no call at all: the scan throws what the [PublicKey]
    constructor threw, with nothing asked. *)
Theorem scan_asks_for_pages_then_batches (fuel : nat) (target : string + PublicKey)
  (message : string) (batchSize : nat) (w : World) :
  (exists fetches pages,
     snd (run (Memo.checkForMessage fuel target message batchSize) w) = fetches ++ pages
     /\ Forall (fun c => exists key,
                          PublicKey_from target = Ok key
                          /\ is_page_request key (Date_now w - 24 * 60 * 60 * 1000) c)
                pages
     /\ Forall (fun c => (exists key, PublicKey_from target = Ok key)
                         /\ is_batch_fetch batchSize c)
                fetches)
  /\
  (forall e,
     PublicKey_from target = Throw e ->
     run (Memo.checkForMessage fuel target message batchSize) w = (Threw e, [])).
Proof.
  split;
    [|intros e Hthrow;
      unfold run, Memo.checkForMessage, try_catch, bind, lift;
      now rewrite Hthrow].
  unfold run.
  destruct (PublicKey_from target) as [key|e] eqn:Hkey.
  - rewrite (checkForMessage_loops fuel target message batchSize w [] Hkey).
    destruct (Memo.fetchAllSignatures fuel key _ [] None w []) as [o t1] eqn:Hfetch.
    apply fetchAllSignatures_run in Hfetch.
    destruct Hfetch as (pages & -> & Hpages & _). rewrite app_nil_r.
    assert (Hpages' : Forall (fun c => exists key0,
                                  Ok key = Ok key0
                                  /\ is_page_request key0
                                       (Date_now w - 24 * 60 * 60 * 1000) c) pages)
      by (eapply Forall_impl; [|exact Hpages]; intros c Hc; now exists key).
    destruct o as [allSignatures|e|]; try (exists [], pages; now repeat split).
    destruct (Memo.processBatches fuel allSignatures message batchSize 0 w pages)
      as [o t2] eqn:Hbatches.
    apply processBatches_run in Hbatches.
    destruct Hbatches as (fetches & -> & Hfetches & _).
    exists fetches, pages. repeat split; [exact Hpages'|].
    eapply Forall_impl; [|exact Hfetches].
    intros c Hc. split; [now exists key|exact Hc].
  - exists [], [].
    unfold Memo.checkForMessage, try_catch, bind, lift. rewrite Hkey.
    now repeat split.
Qed.

(** X2.  The verdict of the history scan.  When the scan returns, it returns
    [true] exactly when one of the transaction fetches it made was answered
    with a transaction whose log includes the marker; and it stops at the
    first such answer: the hit is its latest call. *)
Theorem scan_returns_whether_it_hit (fuel : nat) (target : string + PublicKey)
  (message : string) (batchSize : nat) (w : World) (found : bool) (t : Trace) :
  run (Memo.checkForMessage fuel target message batchSize) w = (Returned found, t) ->
  found = hit w message t
  /\ (found = true ->
      exists signatures rest transactions,
        t = Call_getParsedTransactions signatures 0 :: rest
        /\ getParsedTransactions w rest signatures 0 = Resolved transactions
        /\ existsb (Memo.logs_include message) transactions = true).
Proof.
  unfold run. intros Hrun.
  destruct (PublicKey_from target) as [key|e] eqn:Hkey.
  - rewrite (checkForMessage_loops fuel target message batchSize w [] Hkey) in Hrun.
    destruct (Memo.fetchAllSignatures fuel key _ [] None w []) as [o t1] eqn:Hfetch.
    apply fetchAllSignatures_run in Hfetch.
    destruct Hfetch as (pages & -> & Hpages & _). rewrite app_nil_r in Hrun.
    destruct o as [allSignatures|e|]; try discriminate Hrun.
    apply processBatches_run in Hrun.
    destruct Hrun as (fetches & -> & _ & Hreturned & _).
    destruct (Hreturned found eq_refl) as (_ & Hhit & Hlatest & _).
    split; [|exact Hlatest].
    rewrite Hhit.
    destruct (Forall_page_requests_read w message [] Hpages) as [_ Hnone].
    rewrite app_nil_r in Hnone. rewrite Hnone. cbn. now rewrite orb_false_r.
  - unfold Memo.checkForMessage, try_catch, bind, lift in Hrun. rewrite Hkey in Hrun.
    discriminate Hrun.
Qed.

(** X3.  What the history scan looks up.  When the scan returns, the signatures
    whose transactions it fetched are, in order and without a gap or a
    repeat, the signatures the node listed, up to the batch of the hit; when
    it returns [false], they are all of them. *)
Theorem scan_fetches_what_was_listed (fuel : nat) (target : string + PublicKey)
  (message : string) (batchSize : nat) (w : World) (found : bool) (t : Trace) :
  run (Memo.checkForMessage fuel target message batchSize) w = (Returned found, t) ->
  exists rest,
    signatures_listed w t = concat (batches_fetched t) ++ rest
    /\ (found = false -> rest = []).
Proof.
  unfold run. intros Hrun.
  destruct (PublicKey_from target) as [key|e] eqn:Hkey.
  - rewrite (checkForMessage_loops fuel target message batchSize w [] Hkey) in Hrun.
    destruct (Memo.fetchAllSignatures fuel key _ [] None w []) as [o t1] eqn:Hfetch.
    apply fetchAllSignatures_run in Hfetch.
    destruct Hfetch as (pages & -> & Hpages & Hlisted & _). rewrite app_nil_r in *.
    destruct o as [allSignatures|e|]; try discriminate Hrun.
    destruct (Hlisted allSignatures eq_refl) as (_ & more & -> & Hmore).
    cbn in Hmore.
    apply processBatches_run in Hrun.
    destruct Hrun as (fetches & -> & Hfetches & Hreturned & _).
    destruct (Hreturned found eq_refl) as (_ & _ & _ & got & rest & Hskip & Hgot & Hrest).
    exists rest. split; [|exact Hrest].
    rewrite (Forall_batch_fetches_read w pages Hfetches), Hmore, Hgot.
    destruct (Forall_page_requests_read w message [] Hpages) as [Hnone _].
    rewrite app_nil_r in Hnone. rewrite Hnone. cbn in Hskip |- *. exact Hskip.
  - unfold Memo.checkForMessage, try_catch, bind, lift in Hrun. rewrite Hkey in Hrun.
    discriminate Hrun.
Qed.

(** X4.  Failure of the history scan.  A scan that throws rethrows what stopped
    it: the error of the [PublicKey] constructor, before any call, or the
    rejection, as an [Error], of the latest call it made; a thrown string
    never comes out of it. *)
Theorem scan_rethrows_what_stopped_it (fuel : nat) (target : string + PublicKey)
  (message : string) (batchSize : nat) (w : World) (e : Thrown) (t : Trace) :
  run (Memo.checkForMessage fuel target message batchSize) w = (Threw e, t) ->
  (t = [] /\ PublicKey_from target = Throw e /\ e = ThrownError "Error")
  \/ (exists error, e = ThrownError error /\ rejection w t = Some error).
Proof.
  unfold run. intros Hrun.
  destruct (PublicKey_from target) as [key|e'] eqn:Hkey.
  - right.
    rewrite (checkForMessage_loops fuel target message batchSize w [] Hkey) in Hrun.
    destruct (Memo.fetchAllSignatures fuel key _ [] None w []) as [o t1] eqn:Hfetch.
    apply fetchAllSignatures_run in Hfetch.
    destruct Hfetch as (pages & -> & _ & _ & Hthrew).
    destruct o as [allSignatures|e1|]; try discriminate Hrun.
    + apply processBatches_run in Hrun.
      destruct Hrun as (fetches & _ & _ & _ & Hthrew').
      now apply Hthrew'.
    + injection Hrun as <- <-. now apply Hthrew.
  - left.
    unfold Memo.checkForMessage, try_catch, bind, lift in Hrun. rewrite Hkey in Hrun.
    injection Hrun as <- <-.
    unfold PublicKey_from in Hkey. destruct target as [text|key]; [|discriminate].
    destruct (PublicKey_new text); [discriminate|].
    injection Hkey as <-. now repeat split.
Qed.

(** X8.  The paging loop has no bound of its own.  Against a node that answers
    every request with a page whose oldest entry is inside the window, the
    loop asks for one page after another as long as it is given fuel, and
    never returns. *)
Theorem paging_never_ends_on_an_endless_history
  (key : PublicKey) (windowStart : Z) (w : World) :
  (forall (t : Trace) (before : option string),
     exists page oldest,
       getSignaturesForAddress w t key 100 before windowStart = Resolved page
       /\ oldest_of page = Some oldest
       /\ windowStart <= nullish (blockTime oldest) 0 * 1000) ->
  forall (fuel : nat) (allSignatures : list string) (before : option string) (t : Trace),
    fst (Memo.fetchAllSignatures fuel key windowStart allSignatures before w t) = Pending
    /\ length (snd (Memo.fetchAllSignatures fuel key windowStart allSignatures before w t))
       = (fuel + length t)%nat.
Proof.
  intros Hendless fuel.
  induction fuel as [|fuel IH]; intros allSignatures before t; [now split|].
  rewrite fetchAllSignatures_step. cbv zeta.
  destruct (Hendless t before) as (page & oldest & -> & Holdest & Hinside).
  destruct page as [|s page]; [discriminate Holdest|].
  rewrite Holdest.
  destruct (Z.ltb_spec (nullish (blockTime oldest) 0 * 1000) windowStart); [lia|].
  destruct (IH (allSignatures ++ map signature (s :: page)) (Some (signature oldest))
               (page_request key before windowStart :: t)) as [Hpending Hlength].
  split; [exact Hpending|]. rewrite Hlength. cbn [length]. lia.
Qed.

(** X7.  A batch size of zero.  With signatures left to look up, a batch size of
    [0] and a node that answers every fetch without a hit, the batch loop
    fetches the empty batch again and again and never returns. *)
Theorem zero_batchSize_never_ends
  (allSignatures : list string) (message : string) (i : nat) (w : World) :
  (i < length allSignatures)%nat ->
  (forall (t : Trace) (signatures : list string),
     exists transactions,
       getParsedTransactions w t signatures 0 = Resolved transactions
       /\ existsb (Memo.logs_include message) transactions = false) ->
  forall (fuel : nat) (t : Trace),
    fst (Memo.processBatches fuel allSignatures message 0 i w t) = Pending
    /\ batches_fetched (snd (Memo.processBatches fuel allSignatures message 0 i w t))
       = batches_fetched t ++ repeat [] fuel.
Proof.
  intros Hleft Hmiss fuel.
  induction fuel as [|fuel IH]; intros t; [split; [reflexivity|now rewrite app_nil_r]|].
  cbn [Memo.processBatches].
  destruct (Nat.ltb_spec i (length allSignatures)); [|lia].
  unfold bind, connection_getParsedTransactions, await.
  destruct (Hmiss t (slice allSignatures i (i + 0))) as (transactions & -> & ->).
  rewrite Nat.add_0_r.
  destruct (IH (Call_getParsedTransactions (slice allSignatures i i) 0 :: t))
    as [Hpending Hbatches].
  split; [exact Hpending|].
  rewrite Hbatches. cbn [batches_fetched repeat].
  unfold slice. rewrite Nat.sub_diag. cbn [firstn].
  now rewrite <- app_assoc.
Qed.

End Scan.

(** ** The Transfer provider's query and metadata *)

Lemma prefix_append (a b : string) : String.prefix a (a ++ b) = true.
Proof.
  induction a as [|c a IH]; simpl; [now destruct b|].
  destruct (ascii_dec c c) as [_|ne]; [exact IH|contradiction].
Qed.

Lemma append_associative (a b c : string) : ((a ++ b) ++ c)%string = (a ++ b ++ c)%string.
Proof. induction a as [|x a IH]; simpl; [reflexivity|now rewrite IH]. Qed.

Lemma includes_append (a b sub : string) :
  includes b sub = true -> includes (a ++ b) sub = true.
Proof.
  intros Hb. induction a as [|c a IH]; simpl; [exact Hb|].
  rewrite IH. apply orb_true_r.
Qed.

Section Query.
Context {P : Platform}.
Variable DEFAULT_SOL_ADDRESS : PublicKey.

(** How the query validator fails. *)
Lemma validatedQueryParams_throws (requestUrl : URL) (e : Thrown) :
  Transfer.validatedQueryParams DEFAULT_SOL_ADDRESS requestUrl = Throw e ->
  exists text, In text query_refusals /\ e = ThrownString text.
Proof.
  unfold Transfer.validatedQueryParams, Transfer.and_then, Transfer.try_, PublicKey_from.
  cbv zeta.
  destruct (searchParams_get (searchParams requestUrl) "to") as [to|];
    [destruct (truthy (Some to)); [destruct (PublicKey_new to)|]|];
    try (intros [= <-]; eexists; split; [left; reflexivity|reflexivity]);
    (destruct (_ <=? 0)%float; [|discriminate]);
    intros [= <-]; eexists; (split; [right; left; reflexivity|reflexivity]).
Qed.

(** The destination the query validator returns depends on [to] alone. *)
Lemma validatedQueryParams_destination (requestUrl : URL) (amount : float)
  (toPubkey : PublicKey) :
  Transfer.validatedQueryParams DEFAULT_SOL_ADDRESS requestUrl = Ok (amount, toPubkey) ->
  Ok toPubkey =
  match searchParams_get (searchParams requestUrl) "to" with
  | Some to => if truthy (Some to) then PublicKey_from (inl to) else Ok DEFAULT_SOL_ADDRESS
  | None => Ok DEFAULT_SOL_ADDRESS
  end.
Proof.
  unfold Transfer.validatedQueryParams, Transfer.and_then, Transfer.try_, PublicKey_from.
  cbv zeta.
  destruct (searchParams_get (searchParams requestUrl) "to") as [to|];
    [destruct (truthy (Some to)); [destruct (PublicKey_new to)|]|];
    try discriminate;
    (destruct (_ <=? 0)%float; [discriminate|]);
    now intros [= _ <-].
Qed.

(** The amount the query validator returns is above zero or not a number,
    and depends on [amount] alone. *)
Lemma validatedQueryParams_amount (requestUrl : URL) (amount : float)
  (toPubkey : PublicKey) :
  Transfer.validatedQueryParams DEFAULT_SOL_ADDRESS requestUrl = Ok (amount, toPubkey) ->
  (amount <=? 0)%float = false
  /\ amount =
     match searchParams_get (searchParams requestUrl) "amount" with
     | Some text => if truthy (Some text) then parseFloat text else Transfer.DEFAULT_SOL_AMOUNT
     | None => Transfer.DEFAULT_SOL_AMOUNT
     end.
Proof.
  unfold Transfer.validatedQueryParams, Transfer.and_then, Transfer.try_, PublicKey_from.
  cbv zeta.
  set (parsed := match searchParams_get (searchParams requestUrl) "amount" with
                 | Some text => _ | None => _ end).
  destruct (searchParams_get (searchParams requestUrl) "to") as [to|];
    [destruct (truthy (Some to)); [destruct (PublicKey_new to)|]|];
    try discriminate;
    (destruct (parsed <=? 0)%float eqn:Hle; [discriminate|]);
    now intros [= <- _].
Qed.

(** X9.  What the query validator returns.  An amount it returns is never at
    or below zero, and is the default or what [parseFloat] read off the
    [amount] parameter; a destination it returns is the default or the key
    the [to] parameter spells; and when it fails, it throws one of its two
    texts, never an [Error]. *)
Theorem validatedQueryParams_result (requestUrl : URL) :
  (forall amount toPubkey,
     Transfer.validatedQueryParams DEFAULT_SOL_ADDRESS requestUrl = Ok (amount, toPubkey) ->
     (amount <=? 0)%float = false
     /\ (amount = Transfer.DEFAULT_SOL_AMOUNT
         \/ exists text,
              searchParams_get (searchParams requestUrl) "amount" = Some text
              /\ amount = parseFloat text)
     /\ (toPubkey = DEFAULT_SOL_ADDRESS
         \/ exists text,
              searchParams_get (searchParams requestUrl) "to" = Some text
              /\ PublicKey_new text = Some toPubkey))
  /\
  (forall e,
     Transfer.validatedQueryParams DEFAULT_SOL_ADDRESS requestUrl = Throw e ->
     e = ThrownString "Invalid input query parameter: to"
     \/ e = ThrownString "Invalid input query parameter: amount").
Proof.
  split.
  - intros amount toPubkey Hok.
    pose proof (validatedQueryParams_destination requestUrl Hok) as Hdest.
    destruct (validatedQueryParams_amount requestUrl Hok) as [Hle Hamount].
    split; [exact Hle|split].
    + destruct (searchParams_get (searchParams requestUrl) "amount") as [text|];
        [|now left].
      destruct (truthy (Some text)); [right; now exists text|now left].
    + destruct (searchParams_get (searchParams requestUrl) "to") as [to|];
        [|left; congruence].
      destruct (truthy (Some to)); [|left; congruence].
      right. exists to. split; [reflexivity|].
      unfold PublicKey_from in Hdest. destruct (PublicKey_new to); congruence.
  - intros e He.
    destruct (validatedQueryParams_throws requestUrl He) as (text & Hin & ->).
    destruct Hin as [<-|[<-|[]]]; [now left|now right].
Qed.

(** X10.  A [to] that is no key.  Whatever the amount, the query validator
    fails naming [to]; [GET] and [POST] answer 400 with that text, and
    [POST] does so before it reads the body or calls the network. *)
Theorem invalid_to_is_rejected (req : Request) (w : World) (text : string) :
  searchParams_get (searchParams (url req)) "to" = Some text ->
  truthy (Some text) = true ->
  PublicKey_new text = None ->
  let refusal :=
    Response_new "Invalid input query parameter: to" 400 ACTIONS_CORS_HEADERS in
  Transfer.validatedQueryParams DEFAULT_SOL_ADDRESS (url req)
  = Throw (ThrownString "Invalid input query parameter: to")
  /\ Transfer.GET DEFAULT_SOL_ADDRESS req = refusal
  /\ run (Transfer.POST DEFAULT_SOL_ADDRESS req) w = (Returned refusal, []).
Proof.
  intros Hto Htruthy Hkey refusal.
  assert (Hv : Transfer.validatedQueryParams DEFAULT_SOL_ADDRESS (url req)
               = Throw (ThrownString "Invalid input query parameter: to")).
  { unfold Transfer.validatedQueryParams, PublicKey_from.
    now rewrite Hto, Htruthy, Hkey. }
  split; [exact Hv|split].
  - unfold Transfer.GET. cbv zeta. now rewrite Hv.
  - now rewrite Transfer_POST_paths, Hv.
Qed.

(** X11.  Parameters that are absent or empty.  Without a [to] and an [amount],
    or with empty ones, the query validator returns the defaults of
    [const.ts]: 0.1 SOL to [DEFAULT_SOL_ADDRESS]; the action hrefs of [GET]
    then carry that address. *)
Theorem absent_parameters_take_the_defaults (req : Request) :
  truthy (searchParams_get (searchParams (url req)) "to") = false ->
  truthy (searchParams_get (searchParams (url req)) "amount") = false ->
  Transfer.validatedQueryParams DEFAULT_SOL_ADDRESS (url req)
  = Ok (Transfer.DEFAULT_SOL_AMOUNT, DEFAULT_SOL_ADDRESS)
  /\ Transfer.GET DEFAULT_SOL_ADDRESS req
     = Response_json
         (GetBody (Transfer.payload_for DEFAULT_SOL_ADDRESS (origin (url req))))
         ACTIONS_CORS_HEADERS.
Proof.
  intros Hto Hamount.
  assert (Hv : Transfer.validatedQueryParams DEFAULT_SOL_ADDRESS (url req)
               = Ok (Transfer.DEFAULT_SOL_AMOUNT, DEFAULT_SOL_ADDRESS)).
  { unfold Transfer.validatedQueryParams. cbv zeta.
    destruct (searchParams_get (searchParams (url req)) "to") as [to|];
      [rewrite Hto|];
      (destruct (searchParams_get (searchParams (url req)) "amount") as [text|];
       [rewrite Hamount|]); reflexivity. }
  split; [exact Hv|].
  unfold Transfer.GET. cbv zeta. now rewrite Hv.
Qed.

(** X13.  The amount and the metadata.  [GET] validates the amount and then
    ignores it: two requests from the same origin with the same [to], whose
    queries both pass validation, get the same response whatever their
    amounts. *)
Theorem GET_ignores_the_amount (r1 r2 : Request)
  (a1 a2 : float) (k1 k2 : PublicKey) :
  origin (url r1) = origin (url r2) ->
  searchParams_get (searchParams (url r1)) "to"
  = searchParams_get (searchParams (url r2)) "to" ->
  Transfer.validatedQueryParams DEFAULT_SOL_ADDRESS (url r1) = Ok (a1, k1) ->
  Transfer.validatedQueryParams DEFAULT_SOL_ADDRESS (url r2) = Ok (a2, k2) ->
  Transfer.GET DEFAULT_SOL_ADDRESS r1 = Transfer.GET DEFAULT_SOL_ADDRESS r2.
Proof.
  intros Horigin Hto H1 H2.
  pose proof (validatedQueryParams_destination _ H1) as D1.
  pose proof (validatedQueryParams_destination _ H2) as D2.
  rewrite Hto, <- D2 in D1. injection D1 as ->.
  unfold Transfer.GET. cbv zeta. now rewrite H1, H2, Horigin.
Qed.

(** X14.  The actions of the metadata.  Whatever the destination and the
    origin, every action href of [GET] starts with the origin, the path of
    this endpoint, the destination in base58 and [&amount=]; and every
    parameter of an action is required and stands in braces in its href. *)
Theorem actions_target_the_destination (toPubkey : PublicKey) (requestOrigin : string) :
  exists actions,
    links (Transfer.payload_for toPubkey requestOrigin) = Some actions
    /\ length actions = 4%nat
    /\ Forall
         (fun a =>
            String.prefix (action_base toPubkey requestOrigin) (href a) = true
            /\ forall ps p,
                 parameters a = Some ps ->
                 In p ps ->
                 parameter_required p = true
                 /\ includes (href a) ("{" ++ parameter_name p ++ "}") = true)
         actions.
Proof.
  eexists. split; [reflexivity|split; [reflexivity|]].
  assert (Hbase : forall tail,
             String.prefix (action_base toPubkey requestOrigin)
               (URL_toString ("/api/actions/transfer-sol?to=" ++ toBase58 toPubkey)
                             requestOrigin ++ "&amount=" ++ tail) = true).
  { intros tail. unfold URL_toString.
    replace ((requestOrigin ++ "/api/actions/transfer-sol?to=" ++ toBase58 toPubkey)
             ++ "&amount=" ++ tail)%string
      with (action_base toPubkey requestOrigin ++ tail)%string
      by (unfold action_base; now rewrite !append_associative).
    apply prefix_append. }
  repeat (apply Forall_cons;
          [split;
           [first [exact (Hbase "1") | exact (Hbase "5") | exact (Hbase "10")
                  | exact (Hbase "{amount}")]
           |cbn [parameters]; intros ps p Hps Hin;
            first [discriminate Hps
                  |injection Hps as <-; destruct Hin as [<-|[]];
                   split; [reflexivity|apply includes_append; reflexivity]]]|]).
  apply Forall_nil.
Qed.

End Query.

(** ** The transaction-building endpoints *)

(** Splits on what the goal branches on next, and keeps the equation. *)
Ltac branch_keep :=
  cbv zeta;
  match goal with
  | |- context [match ?x with _ => _ end] => destruct x eqn:?
  | |- context [if ?b then _ else _] => destruct b eqn:?
  end.

(** Closes a goal on the shape of a response. *)
Ltac answer :=
  first
    [ exact I
    | left; eexists; split; [eexists; reflexivity|reflexivity]
    | right; eexists; split; [|reflexivity];
      first [ now left
            | now (right; left)
            | now (right; left; left)
            | now (right; left; right; left)
            | right; right; eexists; reflexivity ] ].

Section Posts.
Context {P : Platform}.
Variable DEFAULT_SOL_ADDRESS : PublicKey.

(** X15.  The shape of every answer.  [GET] of the Memo provider answers 200
    with metadata.  [POST] of the Memo provider answers 200 with a
    transaction or 400 with one of two fixed texts.  [GET] of the Transfer
    provider answers 200 with metadata or 400 with one of the two texts of
    the query validator.  [POST] of the Transfer provider answers 200 with a
    transaction or 400 with one of those four texts or the rent rejection.
    No other status is sent, and no text of an error of a library or of the
    node reaches the client. *)
Theorem handlers_answer_200_or_400 (fuel : nat) (req : Request) (w : World) :
  answers is_metadata (fun _ => False) (Memo.GET req)
  /\ answers_if_ended (fun text => In text body_refusals)
                      (fst (run (Memo.POST fuel req) w))
  /\ answers is_metadata (fun text => In text query_refusals)
             (Transfer.GET DEFAULT_SOL_ADDRESS req)
  /\ exists r,
       fst (run (Transfer.POST DEFAULT_SOL_ADDRESS req) w) = Returned r
       /\ answers is_transaction
                  (fun text =>
                     In text query_refusals
                     \/ In text body_refusals
                     \/ exists toPubkey, text = Transfer.rent_error toPubkey)
                  r.
Proof.
  split; [answer|split; [|split]].
  - unfold Memo.POST. rewrite Memo_POST_with_paths.
    repeat branch; cbn [fst]; answer.
  - unfold Transfer.GET. cbv zeta.
    destruct (Transfer.validatedQueryParams DEFAULT_SOL_ADDRESS (url req))
      as [[amount toPubkey]|e] eqn:Hv; [answer|].
    destruct (validatedQueryParams_throws _ _ Hv) as (text & Hin & ->).
    right. now exists text.
  - rewrite Transfer_POST_paths.
    destruct (Transfer.validatedQueryParams DEFAULT_SOL_ADDRESS (url req))
      as [[amount toPubkey]|e] eqn:Hv.
    + repeat branch; eexists; (split; [reflexivity|]); answer.
    + destruct (validatedQueryParams_throws _ _ Hv) as (text & Hin & ->).
      eexists. split; [reflexivity|]. right. exists text. now split; [left|].
Qed.

(** X16.  The payer and the block of a draft.  Every draft that [POST] of
    either provider hands to [createPostResponse] has the account of the
    request body as its fee payer and a block hash the node answered as its
    recent block hash. *)
Theorem drafts_name_the_payer_and_the_block (fuel : nat) (req : Request) (w : World) :
  Forall (names_payer_and_block req w) (handed (snd (run (Memo.POST fuel req) w)))
  /\ Forall (names_payer_and_block req w)
            (handed (snd (run (Transfer.POST DEFAULT_SOL_ADDRESS req) w))).
Proof.
  split.
  - unfold Memo.POST. rewrite Memo_POST_with_paths.
    destruct (json req) as [posted|error] eqn:Hjson; [|constructor].
    destruct (PublicKey_new (account posted)) as [payer|] eqn:Hkey; [|constructor].
    destruct (Connection_new w) as [error|]; [constructor|].
    pose proof (checkForMessage_handed fuel (inl Memo.scan_target)
                  "initial message" 100 w []) as Hscan.
    destruct (Memo.checkForMessage fuel (inl Memo.scan_target) "initial message" 100 w [])
      as [scanned t1].
    cbn [snd handed] in Hscan.
    destruct scanned as [found|e|];
      [| |cbn [snd]; rewrite Hscan; constructor];
      (destruct (getLatestBlockhash w t1) as [blockhash|error] eqn:Hhash;
       [|cbn [snd handed]; rewrite Hscan; constructor]);
      cbv zeta;
      destruct (createPostResponse w (Call_getLatestBlockhash :: t1) _ _);
      cbn [snd handed]; rewrite Hscan; constructor; try constructor;
      now exists posted, payer, t1, blockhash.
  - rewrite Transfer_POST_paths.
    destruct (Transfer.validatedQueryParams DEFAULT_SOL_ADDRESS (url req))
      as [[amount toPubkey]|e]; [|constructor].
    destruct (json req) as [posted|error] eqn:Hjson; [|constructor].
    destruct (PublicKey_new (account posted)) as [payer|] eqn:Hkey; [|constructor].
    destruct (Connection_new w) as [error|]; [constructor|].
    cbv zeta.
    destruct (getMinimumBalanceForRentExemption w [] 0) as [minimumBalance|error];
      [|constructor].
    destruct (amount * LAMPORTS_PER_SOL <? minimumBalance)%float; [constructor|].
    destruct (BigInt (amount * LAMPORTS_PER_SOL)) as [lamports|]; [|constructor].
    destruct (fits_u64 lamports); [|constructor].
    destruct (getLatestBlockhash w _) as [blockhash|error] eqn:Hhash; [|constructor].
    destruct (createPostResponse w _ _ _); cbn [snd handed];
      constructor; try constructor;
      now exists posted, payer, [Call_getMinimumBalanceForRentExemption 0], blockhash.
Qed.

(** X17.  A 200 answer.  When [POST] of either provider answers 200, the latest
    call it made is [createPostResponse], and the body of the answer is the
    payload that call resolved with. *)
Theorem a_200_answer_is_the_payload_of_createPostResponse
  (fuel : nat) (req : Request) (w : World) (r : Response) :
  status r = 200 ->
  (fst (run (Memo.POST fuel req) w) = Returned r ->
   is_payload_of_latest_call w (snd (run (Memo.POST fuel req) w)) r)
  /\
  (fst (run (Transfer.POST DEFAULT_SOL_ADDRESS req) w) = Returned r ->
   is_payload_of_latest_call w (snd (run (Transfer.POST DEFAULT_SOL_ADDRESS req) w)) r).
Proof.
  intros Hstatus. split.
  - unfold Memo.POST. rewrite Memo_POST_with_paths.
    repeat branch_keep; cbn [fst snd]; intros Hr;
      try discriminate Hr; apply Returned_inj in Hr; subst r;
      try discriminate Hstatus;
      do 4 eexists; (split; [reflexivity|split; [eassumption|reflexivity]]).
  - rewrite Transfer_POST_paths.
    repeat branch_keep; cbn [fst snd]; intros Hr;
      try discriminate Hr; apply Returned_inj in Hr; subst r;
      try discriminate Hstatus;
      do 4 eexists; (split; [reflexivity|split; [eassumption|reflexivity]]).
Qed.

(** X18.  A body that is not JSON.  When the body of the request cannot be
    read as JSON, [POST] of the Memo provider answers 400 with the text of
    an unknown error and calls nothing; so does [POST] of the Transfer
    provider on a query that passes validation. *)
Theorem unreadable_body_is_an_unknown_error
  (fuel : nat) (req : Request) (w : World) (error : string) :
  json req = Rejected error ->
  run (Memo.POST fuel req) w = (Returned unknown_error, [])
  /\
  (forall validated,
     Transfer.validatedQueryParams DEFAULT_SOL_ADDRESS (url req) = Ok validated ->
     run (Transfer.POST DEFAULT_SOL_ADDRESS req) w = (Returned unknown_error, [])).
Proof.
  intros Hjson. split.
  - unfold Memo.POST. now rewrite Memo_POST_with_paths, Hjson.
  - intros [amount toPubkey] Hv. now rewrite Transfer_POST_paths, Hv, Hjson.
Qed.

(** X19.  A rejected call.  When the latest call of [POST] was rejected, be it
    by the node or by [createPostResponse], the answer is the 400 of an
    unknown error (for the Memo provider, unless its scan is out of fuel):
    what the rejection said stays on the server. *)
Theorem a_rejected_call_is_an_unknown_error
  (fuel : nat) (req : Request) (w : World) (error : string) :
  (rejection w (snd (run (Memo.POST fuel req) w)) = Some error ->
   fst (run (Memo.POST fuel req) w) = Returned unknown_error
   \/ fst (run (Memo.POST fuel req) w) = Pending)
  /\
  (rejection w (snd (run (Transfer.POST DEFAULT_SOL_ADDRESS req) w)) = Some error ->
   fst (run (Transfer.POST DEFAULT_SOL_ADDRESS req) w) = Returned unknown_error).
Proof.
  split.
  - unfold Memo.POST. rewrite Memo_POST_with_paths.
    repeat branch_keep; cbn [fst snd rejection]; intros Hrejected;
      first [ now left | now right
            | match goal with
              | H : _ = Resolved _ |- _ => now rewrite H in Hrejected
              end ].
  - rewrite Transfer_POST_paths.
    repeat branch_keep; cbn [fst snd rejection]; intros Hrejected;
      first [ discriminate Hrejected | reflexivity
            | match goal with
              | H : _ = Resolved _ |- _ => now rewrite H in Hrejected
              end ].
Qed.

(** X20.  A transfer from end to end.  For a query that passes validation, a
    well-formed account, a rent-exempt minimum the amount is not below, a
    whole number of lamports that fits an unsigned 64-bit integer and a
    block hash: [POST] of the Transfer
    provider asks for the minimum, then for the block hash, then hands
    [createPostResponse] the draft of the one transfer from the caller to
    the destination, paid by the caller, with the message
    [Send <amount> SOL to <destination>], and answers 200 with the payload
    it gets back. *)
Theorem transfer_from_end_to_end
  (req : Request) (w : World) (amount : float) (toPubkey : PublicKey)
  (posted : ActionPostRequest) (payer : PublicKey) (minimumBalance : float)
  (lamports : Z) (blockhash : string) (payload : ActionPostResponse) :
  Transfer.validatedQueryParams DEFAULT_SOL_ADDRESS (url req) = Ok (amount, toPubkey) ->
  json req = Resolved posted ->
  PublicKey_new (account posted) = Some payer ->
  Connection_new w = None ->
  getMinimumBalanceForRentExemption w [] 0 = Resolved minimumBalance ->
  (amount * LAMPORTS_PER_SOL <? minimumBalance)%float = false ->
  BigInt (amount * LAMPORTS_PER_SOL) = Some lamports ->
  fits_u64 lamports = true ->
  getLatestBlockhash w [Call_getMinimumBalanceForRentExemption 0] = Resolved blockhash ->
  createPostResponse w
    [Call_getLatestBlockhash; Call_getMinimumBalanceForRentExemption 0]
    (transfer_draft payer toPubkey lamports blockhash)
    ("Send " ++ Number_toString amount ++ " SOL to " ++ toBase58 toPubkey)
  = Resolved payload ->
  run (Transfer.POST DEFAULT_SOL_ADDRESS req) w
  = (Returned (Response_json (PostBody payload) ACTIONS_CORS_HEADERS),
     [ Call_createPostResponse
         (transfer_draft payer toPubkey lamports blockhash)
         ("Send " ++ Number_toString amount ++ " SOL to " ++ toBase58 toPubkey);
       Call_getLatestBlockhash;
       Call_getMinimumBalanceForRentExemption 0 ]).
Proof.
  intros Hv Hjson Hkey Hconn Hmin Hbelow Hbig Hfits Hhash Hpost.
  rewrite Transfer_POST_paths, Hv, Hjson, Hkey, Hconn, Hmin. cbv zeta.
  rewrite Hbelow, Hbig, Hfits, Hhash. unfold transfer_message. now rewrite Hpost.
Qed.

End Posts.

(** ** The further properties at concrete inputs *)

(** The transactions of [Sample.unmarked_node] do not log the marker. *)
Lemma unmarked_node_misses (t : Trace) (signatures : list string) :
  exists transactions,
    getParsedTransactions Sample.unmarked_node t signatures 0 = Resolved transactions
    /\ existsb (Memo.logs_include "initial message") transactions = false.
Proof.
  eexists. split; [reflexivity|].
  induction signatures as [|s signatures IH]; [reflexivity|].
  cbn [map existsb]. rewrite IH. reflexivity.
Qed.

(** The scan of [Sample.marked_node] ends on the fetch that hit. *)
Lemma scan_returns_whether_it_hit_witness :
  true = hit Sample.marked_node "initial message" Sample.scan_trace
  /\ (true = true ->
      exists signatures rest transactions,
        Sample.scan_trace = Call_getParsedTransactions signatures 0 :: rest
        /\ getParsedTransactions Sample.marked_node rest signatures 0
           = Resolved transactions
        /\ existsb (Memo.logs_include "initial message") transactions = true).
Proof.
  exact (@scan_returns_whether_it_hit Sample.P 5 (inr Sample.key) "initial message" 100
           Sample.marked_node true Sample.scan_trace eq_refl).
Defined.

(** Three signatures on two pages, fetched in batches of two: the batches
    are the signatures listed. *)
Lemma scan_fetches_what_was_listed_witness :
  exists rest,
    signatures_listed Sample.boundary_node
      [ Call_getParsedTransactions ["2Lmw"] 0;
        Call_getParsedTransactions ["5VfY"; "4Qbn"] 0;
        page_request Sample.key (Some "4Qbn") Sample.boundary_window;
        page_request Sample.key None Sample.boundary_window ]
    = concat
        (batches_fetched
           [ Call_getParsedTransactions ["2Lmw"] 0;
             Call_getParsedTransactions ["5VfY"; "4Qbn"] 0;
             page_request Sample.key (Some "4Qbn") Sample.boundary_window;
             page_request Sample.key None Sample.boundary_window ])
      ++ rest
    /\ (false = false -> rest = []).
Proof.
  exact (@scan_fetches_what_was_listed Sample.P 5 (inr Sample.key) "initial message" 2
           Sample.boundary_node false _ eq_refl).
Defined.

(** The scan of [Sample.failing_node] throws the rejection of its fetch. *)
Lemma scan_rethrows_what_stopped_it_witness :
  ([ Call_getParsedTransactions ["5VfY"] 0;
     page_request Sample.key (Some "5VfY") Sample.window;
     page_request Sample.key None Sample.window ] = []
   /\ PublicKey_from (inr Sample.key) = Throw (ThrownError "SolanaJSONRPCError")
   /\ ThrownError "SolanaJSONRPCError" = ThrownError "Error")
  \/ (exists error,
        ThrownError "SolanaJSONRPCError" = ThrownError error
        /\ rejection Sample.failing_node
             [ Call_getParsedTransactions ["5VfY"] 0;
               page_request Sample.key (Some "5VfY") Sample.window;
               page_request Sample.key None Sample.window ] = Some error).
Proof.
  exact (@scan_rethrows_what_stopped_it Sample.P 5 (inr Sample.key) "initial message" 100
           Sample.failing_node (ThrownError "SolanaJSONRPCError") _ eq_refl).
Defined.

(** Seven units of fuel, seven requests, and no end. *)
Lemma paging_never_ends_on_an_endless_history_witness :
  fst (Memo.fetchAllSignatures 7 Sample.key Sample.window [] None Sample.endless_node [])
  = Pending
  /\ length (snd (Memo.fetchAllSignatures 7 Sample.key Sample.window [] None
                    Sample.endless_node []))
     = 7%nat.
Proof.
  refine (@paging_never_ends_on_an_endless_history Sample.P Sample.key Sample.window
            Sample.endless_node _ 7 [] None []).
  intros t before.
  exists (Sample.endless_pages t before),
         {| signature := "5VfY"; blockTime := Some 1700050000 |}.
  split; [reflexivity|split; [reflexivity|]].
  vm_compute. discriminate.
Defined.

(** Four units of fuel, four empty batches, and no end. *)
Lemma zero_batchSize_never_ends_witness :
  fst (Memo.processBatches 4 ["5VfY"] "initial message" 0 0 Sample.unmarked_node [])
  = Pending
  /\ batches_fetched
       (snd (Memo.processBatches 4 ["5VfY"] "initial message" 0 0
               Sample.unmarked_node []))
     = [[]; []; []; []].
Proof.
  refine (@zero_batchSize_never_ends Sample.P ["5VfY"] "initial message" 0
            Sample.unmarked_node _ unmarked_node_misses 4 []).
  cbn. lia.
Defined.


(** Three signatures in batches of two need no more than four turns. *)
Lemma processBatches_ends_witness :
  fst (Memo.processBatches 4 ["5VfY"; "4Qbn"; "2Lmw"] "initial message" 2 0
         Sample.unmarked_node [])
  <> Pending.
Proof.
  refine (@processBatches_ends Sample.P 4 ["5VfY"; "4Qbn"; "2Lmw"] "initial message" 2 0
            Sample.unmarked_node [] _ _); cbn; lia.
Defined.

(** A [to] that is no key is reported before an amount of zero. *)
Lemma invalid_to_is_rejected_witness :
  Transfer.GET Sample.key (Sample.request [("amount", "0"); ("to", "abc")] "")
  = Response_new "Invalid input query parameter: to" 400
                 (ACTIONS_CORS_HEADERS (Platform := Sample.P)).
Proof.
  exact (proj1 (proj2 (@invalid_to_is_rejected Sample.P Sample.key
                         (Sample.request [("amount", "0"); ("to", "abc")] "")
                         Sample.marked_node "abc" eq_refl eq_refl eq_refl))).
Defined.

(** Empty parameters count as absent ones. *)
Lemma absent_parameters_take_the_defaults_witness :
  Transfer.validatedQueryParams Sample.key
    (url (Sample.request [("to", ""); ("amount", "")] ""))
  = Ok (Transfer.DEFAULT_SOL_AMOUNT, Sample.key).
Proof.
  exact (proj1 (@absent_parameters_take_the_defaults Sample.P Sample.key
                  (Sample.request [("to", ""); ("amount", "")] "") eq_refl eq_refl)).
Defined.

(** The metadata for an amount of 5 and for one of 0.25. *)
Lemma GET_ignores_the_amount_witness :
  Transfer.GET Sample.key (Sample.request [("amount", "5")] "")
  = Transfer.GET Sample.key (Sample.other_request [("amount", "0.25")]).
Proof.
  exact (@GET_ignores_the_amount Sample.P Sample.key
           (Sample.request [("amount", "5")] "")
           (Sample.other_request [("amount", "0.25")])
           (parseFloat (Platform := Sample.P) "5")
           (parseFloat (Platform := Sample.P) "0.25")
           Sample.key Sample.key eq_refl eq_refl eq_refl eq_refl).
Defined.

(** The 200 answer of the Transfer provider to a transfer of 1 SOL. *)
Lemma a_200_answer_is_the_payload_of_createPostResponse_witness :
  is_payload_of_latest_call Sample.marked_node
    (snd (run (Transfer.POST Sample.key
                 (Sample.request [("amount", "1")] Transfer.DEFAULT_SOL_ADDRESS_literal))
              Sample.marked_node))
    (Response_json
       (PostBody {| post_transaction := "AQAAAAAAAAAA";
                    post_message :=
                      "Send 1 SOL to AEzZqXyPxWJrjrauScDWMyewnWhv6XwmwqGdXD5vDVd4" |})
       (ACTIONS_CORS_HEADERS (Platform := Sample.P))).
Proof.
  exact (proj2 (@a_200_answer_is_the_payload_of_createPostResponse Sample.P Sample.key 5
                  (Sample.request [("amount", "1")] Transfer.DEFAULT_SOL_ADDRESS_literal)
                  Sample.marked_node
                  (Response_json
                     (PostBody {| post_transaction := "AQAAAAAAAAAA";
                                  post_message :=
                                    "Send 1 SOL to AEzZqXyPxWJrjrauScDWMyewnWhv6XwmwqGdXD5vDVd4" |})
                     (ACTIONS_CORS_HEADERS (Platform := Sample.P)))
                  eq_refl) eq_refl).
Defined.

(** A body that is not JSON. *)
Lemma unreadable_body_is_an_unknown_error_witness :
  run (Memo.POST 5 (Sample.other_request [])) Sample.marked_node
  = (Returned (unknown_error (P := Sample.P)), []).
Proof.
  exact (proj1 (@unreadable_body_is_an_unknown_error Sample.P Sample.key 5
                  (Sample.other_request []) Sample.marked_node "SyntaxError" eq_refl)).
Defined.

(** A transfer of 2.5 SOL. *)
Lemma transfer_from_end_to_end_witness :
  run (Transfer.POST Sample.key
         (Sample.request [("amount", "2.5")] Transfer.DEFAULT_SOL_ADDRESS_literal))
      Sample.marked_node
  = (Returned (Response_json
                 (PostBody {| post_transaction := "AQAAAAAAAAAA";
                              post_message :=
                                "Send 2.5 SOL to AEzZqXyPxWJrjrauScDWMyewnWhv6XwmwqGdXD5vDVd4" |})
                 (ACTIONS_CORS_HEADERS (Platform := Sample.P))),
     [ Call_createPostResponse
         (transfer_draft Sample.key Sample.key 2500000000 Sample.blockhash)
         "Send 2.5 SOL to AEzZqXyPxWJrjrauScDWMyewnWhv6XwmwqGdXD5vDVd4";
       Call_getLatestBlockhash;
       Call_getMinimumBalanceForRentExemption 0 ]).
Proof.
  exact (@transfer_from_end_to_end Sample.P Sample.key
           (Sample.request [("amount", "2.5")] Transfer.DEFAULT_SOL_ADDRESS_literal)
           Sample.marked_node (parseFloat (Platform := Sample.P) "2.5") Sample.key
           {| account := Transfer.DEFAULT_SOL_ADDRESS_literal |} Sample.key
           890880%float 2500000000 Sample.blockhash
           {| post_transaction := "AQAAAAAAAAAA";
              post_message :=
                "Send 2.5 SOL to AEzZqXyPxWJrjrauScDWMyewnWhv6XwmwqGdXD5vDVd4" |}
           eq_refl eq_refl eq_refl eq_refl eq_refl eq_refl eq_refl eq_refl eq_refl
           eq_refl).
Defined.
